(** * ddnswitch: version cache, installer, activator and symlink resolver

    A shallow embedding of [core.go] (package [main] of ddnswitch), with
    the theorems that settle the specification's claims about it.

    The program is a sequence of effects on three things it does not own:
    the file system, the network and the child processes it starts.  They
    are gathered in one record, [World], that every function threads
    through; a function of the program is a state transformer that returns
    either a value or a Go [error]. *)

From Stdlib Require Import ZArith List Lia Bool Ascii String DecimalString.
From Stdlib Require Import Sorting.Permutation Sorting.Sorted.
From stdpp Require Import base option gmap strings.

Local Open Scope Z_scope.
Local Open Scope string_scope.

(** ** Package [strings] *)

Module strings.

(** [strings.HasPrefix]. *)
Definition HasPrefix (s pre : string) : bool := String.prefix pre s.

(** [strings.Contains s sub]: some suffix of [s] starts with [sub]. *)
Fixpoint Contains (s sub : string) : bool :=
  String.prefix sub s ||
  match s with
  | EmptyString => false
  | String _ s' => Contains s' sub
  end.

(** [strings.TrimPrefix]. *)
Definition TrimPrefix (s pre : string) : string :=
  if String.prefix pre s
  then String.substring (String.length pre)
                        (String.length s - String.length pre) s
  else s.

(** White space as [unicode.IsSpace] sees it on one-byte characters. *)
Definition isSpace (c : ascii) : bool :=
  let n := nat_of_ascii c in
  ((9 <=? n) && (n <=? 13))%nat || (n =? 32)%nat.

Fixpoint TrimLeft (s : string) : string :=
  match s with
  | String c s' => if isSpace c then TrimLeft s' else s
  | EmptyString => EmptyString
  end.

(** The string without its trailing white space. *)
Fixpoint TrimRight (s : string) : string :=
  match s with
  | EmptyString => EmptyString
  | String c s' =>
      match TrimRight s' with
      | EmptyString => if isSpace c then EmptyString else String c EmptyString
      | r => String c r
      end
  end.

(** [strings.TrimSpace]. *)
Definition TrimSpace (s : string) : string := TrimRight (TrimLeft s).

(** [strings.Split s sep] for a one-byte separator: the fields between
    the separators, at least one of them. *)
Fixpoint Split (s : string) (sep : ascii) : list string :=
  match s with
  | EmptyString => [EmptyString]
  | String c s' =>
      if Ascii.eqb c sep then EmptyString :: Split s' sep
      else match Split s' sep with
           | f :: fs => String c f :: fs
           | [] => [String c EmptyString]
           end
  end.

(** [strings.Join]. *)
Fixpoint Join (elems : list string) (sep : string) : string :=
  match elems with
  | [] => EmptyString
  | [e] => e
  | e :: es => e ++ sep ++ Join es sep
  end.

End strings.

(** Go compares strings byte by byte; [a > b] is [gtb a b]. *)
Definition string_gtb (a b : string) : bool :=
  match String.compare a b with Gt => true | _ => false end.

(** ** Package [path/filepath], for slash-separated paths *)

Module filepath.

(** The stack of components [Clean] keeps while it reads a path: [.] and
    empty components vanish, [..] removes the component before it, and at
    the start of a relative path it stays. *)
Fixpoint cleanComponents (rooted : bool) (stack : list string)
         (comps : list string) : list string :=
  match comps with
  | [] => rev stack
  | c :: cs =>
      if String.eqb c "" || String.eqb c "." then
        cleanComponents rooted stack cs
      else if String.eqb c ".." then
        match stack with
        | top :: rest =>
            if String.eqb top ".."
            then cleanComponents rooted (c :: stack) cs
            else cleanComponents rooted rest cs
        | [] =>
            if rooted then cleanComponents rooted [] cs
            else cleanComponents rooted [c] cs
        end
      else cleanComponents rooted (c :: stack) cs
  end.

(** [filepath.Clean]. *)
Definition Clean (p : string) : string :=
  let rooted := String.prefix "/" p in
  let body := strings.Join (cleanComponents rooted [] (strings.Split p "/")) "/" in
  if rooted then "/" ++ body
  else if String.eqb body "" then "." else body.

(** [filepath.Join]: the non-empty elements, separated and cleaned; the
    empty string when there is none. *)
Definition Join (elems : list string) : string :=
  match List.filter (fun e => negb (String.eqb e "")) elems with
  | [] => ""
  | es => Clean (strings.Join es "/")
  end.

(** The path up to its last separator, the separator included. *)
Fixpoint upToLastSlash (p : string) : string :=
  match p with
  | EmptyString => EmptyString
  | String c p' =>
      let r := upToLastSlash p' in
      if Ascii.eqb c "/" || negb (String.eqb r "") then String c r
      else EmptyString
  end.

(** [filepath.Dir]: all but the last element of the path, cleaned. *)
Definition Dir (p : string) : string := Clean (upToLastSlash p).

End filepath.

(** ** The libraries the program calls

    [github.com/Masterminds/semver/v3] and [sort.Slice] are not part of
    the repository.  The program sees each through a small interface; the
    theorems are stated over any implementation of the interface, and the
    concrete instances below (dotted numeric versions, insertion sort,
    which is what [sort.Slice] runs on short slices) evaluate the examples. *)

Class Semver := {
  Version : Type;
  (** [semver.NewVersion]; [None] is [ErrInvalidSemVer]. *)
  NewVersion : string -> option Version;
  (** The method [GreaterThan] of a version. *)
  GreaterThan : Version -> Version -> bool
}.


(** [ordered less l]: no element of [l] is [less] than one before it. *)
Definition ordered {A : Type} (less : A -> A -> bool) (l : list A) : Prop :=
  StronglySorted (fun x y => less y x = false) l.



Class SortSlice := {
  (** [sort.Slice x less], on the list of the slice's elements. *)
  sort_Slice : forall A : Type, (A -> A -> bool) -> list A -> list A
}.
Arguments sort_Slice {_} {A} less l.


(** *** Dotted numeric versions *)

Module NumericSemver.

Definition isDigit (c : ascii) : bool :=
  let n := nat_of_ascii c in ((48 <=? n) && (n <=? 57))%nat.

(** A non-empty run of decimal digits that fits 64 bits
    ([strconv.ParseUint (s, 10, 64)]). *)
Fixpoint digits (acc : N) (s : string) : option N :=
  match s with
  | EmptyString => Some acc
  | String c s' =>
      if isDigit c
      then digits (acc * 10 + (N.of_nat (nat_of_ascii c) - 48))%N s'
      else None
  end.

Definition parseUint (s : string) : option N :=
  match s with
  | EmptyString => None
  | _ => match digits 0%N s with
         | Some n => if (n <? 2 ^ 64)%N then Some n else None
         | None => None
         end
  end.

(** [v?MAJOR(.MINOR)?(.PATCH)?], a missing part being 0. *)
Definition parse (s : string) : option (N * N * N) :=
  match strings.Split (strings.TrimPrefix s "v") "." with
  | [a] => x ← parseUint a; Some (x, 0%N, 0%N)
  | [a; b] => x ← parseUint a; y ← parseUint b; Some (x, y, 0%N)
  | [a; b; c] => x ← parseUint a; y ← parseUint b; z ← parseUint c; Some (x, y, z)
  | _ => None
  end.

Definition greater (v o : N * N * N) : bool :=
  let '(a, b, c) := v in
  let '(a', b', c') := o in
  (a' <? a)%N || ((a =? a')%N && ((b' <? b)%N || ((b =? b')%N && (c' <? c)%N))).

#[global] Instance numeric : Semver :=
  {| Version := N * N * N; NewVersion := parse; GreaterThan := greater |}.

End NumericSemver.

(** *** Insertion sort, as [insertionSortLessFunc] of package [sort] *)

Module InsertionSort.

Section Sort.
Context {A : Type} (less : A -> A -> bool).

(** The inner loop: [x] moves left over the elements it is [less] than.
    The sorted prefix is kept reversed, its last element first. *)
Fixpoint insert (x : A) (rprefix : list A) : list A :=
  match rprefix with
  | [] => [x]
  | y :: rest => if less x y then y :: insert x rest else x :: rprefix
  end.

Definition sort (l : list A) : list A :=
  rev (fold_left (fun rprefix x => insert x rprefix) l []).
End Sort.

#[global] Instance insertion : SortSlice := {| sort_Slice := @sort |}.

End InsertionSort.

(** ** Data of the program *)

Record Asset := {
  AssetName : string;
  BrowserDownloadURL : string
}.

Record Release := {
  TagName : string;
  Name : string;
  Assets : list Asset;
  PreRelease : bool;
  Draft : bool
}.

Definition releasesURL : string :=
  "https://gist.githubusercontent.com/shukla2112/7cab141a3eafab4d4565d7347eec9029/raw/releases.json".
Definition installDir : string := ".ddnswitch".
Definition binName : string := "ddn".

(** Durations are nanoseconds, as [time.Duration]. *)
Definition second : Z := 1000000000.
Definition hour : Z := 3600 * second.
Definition cacheTTL : Z := 1 * hour.
Definition maxDuration : Z := 2 ^ 63 - 1.
Definition minDuration : Z := - 2 ^ 63.

(** Go errors: the message of [fmt.Errorf] and the error it wraps with
    [%w], or an error of the operating system or of a library. *)
Inductive error :=
| Errorf (msg : string)
| Wrap (msg : string) (cause : error)
| SysError (op : string) (arg : string).

Inductive result (A : Type) :=
| Ok (a : A)
| Err (e : error).
Arguments Ok {A} a.
Arguments Err {A} e.

(** ** The world outside the program *)

(** An entry of the file system.  A directory is writable or not for the
    user who runs the program; a file has its bytes and permission bits. *)
Inductive Node :=
| Dir (writable : bool)
| File (content : string) (perm : Z)
| Symlink (target : string).

(** What an HTTP GET comes back with: an error of the transport, or a
    status code and a body. *)
Inductive Response :=
| TransportError
| Reply (status : Z) (body : string).

(** The parts of the environment that a run does not change. *)
Record Env := {
  GOOS : string;
  GOARCH : string;
  (** [os.UserHomeDir]; [None] when it fails. *)
  HOME : option string;
  (** [os.Getenv "PATH"]. *)
  PATH : string;
  (** Bits the system clears in the mode of a file it creates. *)
  umask : Z;
  (** Whether the platform and the file system can make symbolic links. *)
  symlinks : bool;
  (** Whether [http.NewRequestWithContext] accepts a URL. *)
  validURL : string -> bool;
  (** The server's answer to a GET of a URL at a time, and how long the
      answer takes. *)
  http_get : Z -> string -> Response * Z;
  (** [json.Decoder.Decode] into [[]Release]; [None] is a decoding error. *)
  json_Decode : string -> option (list Release);
  (** What a program file prints when run with the argument [version], or
      [None] when it fails to run or exits with an error. *)
  run_version : string -> option string;
  (** The same for the argument [--version]. *)
  run_dash_version : string -> option string
}.

Record World := {
  (** Package-level variables. *)
  versionCache : list Release;
  versionCacheTime : Z;
  cachePrerelease : bool;
  includePrerelease : bool;
  (** The environment's state. *)
  clock : Z;
  fs : gmap string Node;
  (** URLs requested so far, the latest first. *)
  requests : list string;
  (** Lines printed so far, the latest first. *)
  stdout : list string;
  (** Ghost: the arguments of the calls made through the variable
      [installVersion], the latest first. *)
  installCalls : list string
}.

Definition set_cache (w : World) (rs : list Release) (t : Z) (pre : bool) : World :=
  {| versionCache := rs; versionCacheTime := t; cachePrerelease := pre;
     includePrerelease := includePrerelease w; clock := clock w; fs := fs w;
     requests := requests w; stdout := stdout w;
     installCalls := installCalls w |}.

Definition set_fs (w : World) (f : gmap string Node) : World :=
  {| versionCache := versionCache w; versionCacheTime := versionCacheTime w;
     cachePrerelease := cachePrerelease w;
     includePrerelease := includePrerelease w; clock := clock w; fs := f;
     requests := requests w; stdout := stdout w;
     installCalls := installCalls w |}.

Definition print (line : string) (w : World) : World :=
  {| versionCache := versionCache w; versionCacheTime := versionCacheTime w;
     cachePrerelease := cachePrerelease w;
     includePrerelease := includePrerelease w; clock := clock w; fs := fs w;
     requests := requests w; stdout := line :: stdout w;
     installCalls := installCalls w |}.

(** A request leaves the program: it is recorded and time passes. *)
Definition sent (url : string) (elapsed : Z) (w : World) : World :=
  {| versionCache := versionCache w; versionCacheTime := versionCacheTime w;
     cachePrerelease := cachePrerelease w;
     includePrerelease := includePrerelease w; clock := clock w + elapsed;
     fs := fs w; requests := url :: requests w; stdout := stdout w;
     installCalls := installCalls w |}.

(** Ghost: a call through [installVersion] is recorded. *)
Definition called (version : string) (w : World) : World :=
  {| versionCache := versionCache w; versionCacheTime := versionCacheTime w;
     cachePrerelease := cachePrerelease w;
     includePrerelease := includePrerelease w; clock := clock w;
     fs := fs w; requests := requests w; stdout := stdout w;
     installCalls := version :: installCalls w |}.

(** The cache variables of a world. *)
Definition cache_of (w : World) : list Release * Z * bool :=
  (versionCache w, versionCacheTime w, cachePrerelease w).

(** A function of the program: it changes the world and returns. *)
Definition M (A : Type) : Type := World -> result A * World.

Definition ret {A : Type} (a : A) : M A := fun w => (Ok a, w).
Definition fail {A : Type} (e : error) : M A := fun w => (Err e, w).
Definition bind {A B : Type} (m : M A) (k : A -> M B) : M B :=
  fun w => match m w with
           | (Ok a, w') => k a w'
           | (Err e, w') => (Err e, w')
           end.
(** The call's own outcome, handed to the caller as a value
    ([if err := f(); err != nil]). *)
Definition try {A : Type} (m : M A) : M (result A) :=
  fun w => let '(r, w') := m w in (Ok r, w').
Definition modify (f : World -> World) : M unit := fun w => (Ok tt, f w).
Definition gets {A : Type} (f : World -> A) : M A := fun w => (Ok (f w), w).

Declare Scope go_scope.
Delimit Scope go_scope with go.
Notation "x <- m ;; k" := (bind m (fun x => k))
  (at level 100, m at next level, right associativity) : go_scope.
Notation "m ;;; k" := (bind m (fun _ => k))
  (at level 100, right associativity) : go_scope.

(** A computation in which no call goes through [installVersion]. *)
Definition quiet {A : Type} (m : M A) : Prop :=
  forall w, installCalls (snd (m w)) = installCalls w.

(** A computation in which at most one call goes through
    [installVersion], and that for [version]. *)
Definition atMostOnce {A : Type} (version : string) (m : M A) : Prop :=
  forall w, installCalls (snd (m w)) = installCalls w
            \/ installCalls (snd (m w)) = version :: installCalls w.

(** A computation that sends no request. *)
Definition silent {A : Type} (m : M A) : Prop :=
  forall w, requests (snd (m w)) = requests w.

(** A computation that sends at most one request, and that to [url]. *)
Definition atMostOneRequest {A : Type} (url : string) (m : M A) : Prop :=
  forall w, requests (snd (m w)) = requests w
            \/ requests (snd (m w)) = url :: requests w.

(** The outcome of an install as its caller returns it: the error is
    wrapped in the caller's message. *)
Definition installed_or (msg : string) (r : result unit * World) : result unit * World :=
  match r with
  | (Ok _, w') => (Ok tt, w')
  | (Err e, w') => (Err (Wrap msg e), w')
  end.

(** [time.Since t]: the difference saturates at the ends of [Duration]. *)
Definition time_Since (w : World) (t : Z) : Z :=
  Z.max minDuration (Z.min maxDuration (clock w - t)).

(** [%d] of [fmt]. *)
Definition itoa (n : Z) : string := NilZero.string_of_int (Z.to_int n).

(** The command line sets the variable [includePrerelease]. *)
Definition set_flag (pre : bool) (w : World) : World :=
  {| versionCache := versionCache w; versionCacheTime := versionCacheTime w;
     cachePrerelease := cachePrerelease w;
     includePrerelease := pre; clock := clock w; fs := fs w;
     requests := requests w; stdout := stdout w;
     installCalls := installCalls w |}.

(** Time passes. *)
Definition elapse (d : Z) (w : World) : World :=
  {| versionCache := versionCache w; versionCacheTime := versionCacheTime w;
     cachePrerelease := cachePrerelease w;
     includePrerelease := includePrerelease w; clock := clock w + d;
     fs := fs w; requests := requests w; stdout := stdout w;
     installCalls := installCalls w |}.

(** ** The version cache *)

Section Cache.
Context {SV : Semver} {SS : SortSlice}.
Variable env : Env.

(** The filter of the loop over [releases]. *)
Definition keep (pre : bool) (r : Release) : bool :=
  negb (Draft r) && (pre || negb (PreRelease r)).

(** The version of a release: its tag without the leading [v], parsed. *)
Definition tagVersion (r : Release) : option Version :=
  NewVersion (strings.TrimPrefix (TagName r) "v").

(** The [less] function given to [sort.Slice]. *)
Definition less (a b : Release) : bool :=
  match tagVersion a, tagVersion b with
  | Some vi, Some vj => GreaterThan vi vj
  | _, _ => string_gtb (TagName a) (TagName b)
  end.

(** Releases that are no drafts (nor pre-releases, unless included),
    sorted. *)
Definition validReleases (pre : bool) (releases : list Release) : list Release :=
  sort_Slice less (List.filter (keep pre) releases).

(** The condition of the cache's fast path. *)
Definition cache_hit (w : World) : bool :=
  (time_Since w (versionCacheTime w) <? cacheTTL)%Z
  && (0 <? Z.of_nat (length (versionCache w)))%Z
  && Bool.eqb (cachePrerelease w) (includePrerelease w).

(** The client's timeout: a reply later than that is an error. *)
Definition client_Do (url : string) : M Response := fun w =>
  let '(resp, elapsed) := http_get env (clock w) url in
  if (60 * second <=? elapsed)%Z
  then (Ok TransportError, sent url (60 * second) w)
  else (Ok resp, sent url elapsed w).

(** The slow path: the request, the filter, the sort and the update of
    the cache. *)
Definition refresh : M (list Release) := fun w =>
  if negb (validURL env releasesURL)
  then (Err (Wrap "failed to create request"
                  (SysError "NewRequest" releasesURL)), w)
  else
    match client_Do releasesURL w with
    | (Ok TransportError, w1) =>
        (Err (Wrap "failed to fetch releases"
                   (SysError "Get" releasesURL)), w1)
    | (Ok (Reply status body), w1) =>
        if negb (status =? 200)%Z
        then (Err (Errorf ("Releases API returned status: " ++ itoa status)), w1)
        else
          match json_Decode env body with
          | None =>
              (Err (Wrap "failed to decode releases"
                         (SysError "Decode" body)), w1)
          | Some releases =>
              let valid := validReleases (includePrerelease w1) releases in
              (Ok valid, set_cache w1 valid (clock w1) (includePrerelease w1))
          end
    | (Err e, w1) => (Err e, w1)
    end.

Definition fetchAvailableVersions : M (list Release) := fun w =>
  if cache_hit w then (Ok (versionCache w), w) else refresh w.
End Cache.

(** ** Package [os], on the file system of the world

    The file system maps a path to its entry.  The program hands the
    system only paths that [filepath.Join] has cleaned, so a path is its
    own key; links are followed at the last element of a path. *)

Module os.

Definition FS : Type := gmap string Node.

Definition mode_0755 : Z := 493.
Definition mode_0666 : Z := 438.
Definition mode_0111 : Z := 73.
Definition mode_0200 : Z := 128.

(** The outcome of [os.Stat]. *)
Inductive stat :=
| IsNode (n : Node)
| ENOENT
| ELOOP.

(** Where a link leads, a relative target counting from the link's
    directory. *)
Definition link_target (p target : string) : string :=
  if String.prefix "/" target then target
  else filepath.Join [filepath.Dir p; target].

(** The path reached from [p] through links; [None] after too many. *)
Fixpoint resolve (fuel : nat) (f : FS) (p : string) : option string :=
  match f !! p with
  | Some (Symlink t) =>
      match fuel with
      | O => None
      | S n => resolve n f (link_target p t)
      end
  | _ => Some p
  end.

Definition maxLinks : nat := 40.

Definition Stat (f : FS) (p : string) : stat :=
  match resolve maxLinks f p with
  | None => ELOOP
  | Some q => match f !! q with
              | Some n => IsNode n
              | None => ENOENT
              end
  end.

Definition Lstat (f : FS) (p : string) : option Node := f !! p.

Definition Readlink (f : FS) (p : string) : option string :=
  match f !! p with
  | Some (Symlink t) => Some t
  | _ => None
  end.

(** The directory of [p] exists and entries can be made and removed in it. *)
Definition writableDir (f : FS) (d : string) : bool :=
  match Stat f d with
  | IsNode (Dir true) => true
  | _ => false
  end.

(** [k] lies below the directory [p]. *)
Definition under (p k : string) : bool :=
  String.prefix (if String.eqb p "/" then "/" else p ++ "/") k
  && negb (String.eqb k p).

Definition hasChildren (f : FS) (p : string) : bool :=
  existsb (fun kv => under p (fst kv)) (map_to_list f).

(** [os.Create]: the file is made empty, with mode 0666 before the umask
    when it is new. *)
Definition Create (umask : Z) (f : FS) (p : string) : option FS :=
  match resolve maxLinks f p with
  | None => None
  | Some q =>
      match f !! q with
      | Some (File _ perm) =>
          if (Z.land perm mode_0200 =? 0)%Z then None
          else Some (<[q := File "" perm]> f)
      | Some _ => None
      | None =>
          if writableDir f (filepath.Dir q)
          then Some (<[q := File "" (Z.ldiff mode_0666 umask)]> f)
          else None
      end
  end.

(** The bytes written to an open file. *)
Definition write (f : FS) (p : string) (content : string) : FS :=
  match resolve maxLinks f p with
  | Some q => match f !! q with
              | Some (File _ perm) => <[q := File content perm]> f
              | _ => f
              end
  | None => f
  end.

Definition Chmod (f : FS) (p : string) (mode : Z) : option FS :=
  match resolve maxLinks f p with
  | None => None
  | Some q => match f !! q with
              | Some (File c _) => Some (<[q := File c mode]> f)
              | Some _ => Some f
              | None => None
              end
  end.

(** [os.Remove]: a file, a link or an empty directory. *)
Definition Remove (f : FS) (p : string) : option FS :=
  match f !! p with
  | None => None
  | Some n =>
      if negb (writableDir f (filepath.Dir p)) then None
      else match n with
           | Dir _ => if hasChildren f p then None else Some (delete p f)
           | _ => Some (delete p f)
           end
  end.

(** A directory at or below [p] in which nothing can be removed. *)
Definition lockedBelow (f : FS) (p : string) : bool :=
  existsb (fun kv => (String.eqb (fst kv) p || under p (fst kv))
                     && match snd kv with Dir false => true | _ => false end)
          (map_to_list f).

(** [os.RemoveAll]: the entry and all below it; no error when there is
    none. *)
Definition RemoveAll (f : FS) (p : string) : option FS :=
  match f !! p with
  | None => Some f
  | Some _ =>
      if writableDir f (filepath.Dir p) && negb (lockedBelow f p)
      then Some (filter (fun kv => negb (String.eqb (fst kv) p || under p (fst kv)) = true) f)
      else None
  end.

(** [os.Mkdir]. *)
Definition Mkdir (f : FS) (p : string) : option FS :=
  match f !! p with
  | Some _ => None
  | None => if writableDir f (filepath.Dir p)
            then Some (<[p := Dir true]> f) else None
  end.

(** [os.MkdirAll]: the directory and the ancestors that miss; [fuel]
    bounds the number of ancestors. *)
Fixpoint MkdirAllFrom (fuel : nat) (f : FS) (p : string) : option FS :=
  match Stat f p with
  | IsNode (Dir _) => Some f
  | IsNode _ => None
  | _ =>
      match fuel with
      | O => None
      | S n =>
          let parent := filepath.Dir p in
          if String.eqb parent p then None
          else
            match MkdirAllFrom n f parent with
            | None => None
            | Some f' =>
                match Mkdir f' p with
                | Some f'' => Some f''
                | None => match Lstat f' p with
                          | Some (Dir _) => Some f'
                          | _ => None
                          end
                end
            end
      end
  end.

Definition MkdirAll (f : FS) (p : string) : option FS :=
  MkdirAllFrom (String.length p) f p.

(** [os.Symlink oldname newname]. *)
Definition Symlink_ (supported : bool) (f : FS) (oldname newname : string) : option FS :=
  if supported
  then match f !! newname with
       | Some _ => None
       | None => if writableDir f (filepath.Dir newname)
                 then Some (<[newname := Symlink oldname]> f) else None
       end
  else None.

End os.

(** ** Effects of the program on the world *)

Section Effects.
Variable env : Env.

Definition isWindows : bool := String.eqb (GOOS env) "windows".

(** The name of a program file on the platform. *)
Definition exe (p : string) : string :=
  if isWindows then p ++ ".exe" else p.

(** A file-system call that returns only an error. *)
Definition fsdo (op : os.FS -> option os.FS) (e : error) : M unit := fun w =>
  match op (fs w) with
  | Some f => (Ok tt, set_fs w f)
  | None => (Err e, w)
  end.

Definition os_MkdirAll (p : string) : M unit :=
  fsdo (fun f => os.MkdirAll f p) (SysError "mkdir" p).
Definition os_RemoveAll (p : string) : M unit :=
  fsdo (fun f => os.RemoveAll f p) (SysError "unlinkat" p).
Definition os_Remove (p : string) : M unit :=
  fsdo (fun f => os.Remove f p) (SysError "remove" p).
Definition os_Create (p : string) : M unit :=
  fsdo (fun f => os.Create (umask env) f p) (SysError "open" p).
Definition os_Chmod (p : string) (mode : Z) : M unit :=
  fsdo (fun f => os.Chmod f p mode) (SysError "chmod" p).
Definition os_Symlink (oldname newname : string) : M unit :=
  fsdo (fun f => os.Symlink_ (symlinks env) f oldname newname)
       (SysError "symlink" newname).
Definition os_Stat (p : string) : M os.stat := gets (fun w => os.Stat (fs w) p).

(** Whether the system runs the file at [p]: a regular file that, off
    Windows, has an execute bit. *)
Definition runnable (f : os.FS) (p : string) : option string :=
  match os.Stat f p with
  | os.IsNode (File c perm) =>
      if isWindows || negb (Z.land perm os.mode_0111 =? 0)%Z
      then Some c else None
  | _ => None
  end.

(** [exec.Command(p, "version").CombinedOutput()] for a path with a
    directory: the output, or [None] for an error. *)
Definition exec_version (p : string) : M (option string) :=
  gets (fun w => c ← runnable (fs w) p; run_version env c).

Definition listSeparator : ascii := if isWindows then ";"%char else ":"%char.

(** [exec.LookPath]: the first directory of the search list that holds
    a runnable file of that name. *)
Fixpoint lookPath (f : os.FS) (dirs : list string) (name : string) : option string :=
  match dirs with
  | [] => None
  | d :: ds =>
      let p := filepath.Join [if String.eqb d "" then "." else d; exe name] in
      match runnable f p with
      | Some _ => Some p
      | None => lookPath f ds name
      end
  end.

(** [exec.Command("ddn", arg)] and its output, for [arg] one of
    [version] and [--version]. *)
Definition exec_ddn (run : string -> option string) : M (option string) :=
  gets (fun w =>
          p ← lookPath (fs w) (strings.Split (PATH env) listSeparator) "ddn";
          c ← runnable (fs w) p;
          run c).

Definition getHomeDir : M string :=
  match HOME env with
  | Some home => ret home
  | None => fail (SysError "UserHomeDir" "")
  end.

(** The initial value of the variable [getInstallDir]. *)
Definition getInstallDir0 : M string :=
  (home <- getHomeDir ;;
   ret (filepath.Join [home; installDir]))%go.

(** ** The symlink resolver *)

Definition marker : string := ".ddnswitch_test".

Definition preferredDirs (homeDir : string) : list string :=
  [filepath.Join [homeDir; "bin"];
   filepath.Join [homeDir; ".local"; "bin"];
   "/usr/local/bin"].

(** The first loop: the first preferred directory that some entry of
    the search list equals. *)
Definition firstPreferred (preferred pathDirs : list string) : option string :=
  List.find (fun p => existsb (String.eqb p) pathDirs) preferred.

(** The second loop: the first entry, other than the empty one and [.],
    in which the marker file can be created.  The marker is then
    removed, whatever [os.Remove] returns. *)
Fixpoint firstWritable (pathDirs : list string) (f : os.FS) : option string * os.FS :=
  match pathDirs with
  | [] => (None, f)
  | pathDir :: rest =>
      if String.eqb pathDir "" || String.eqb pathDir "."
      then firstWritable rest f
      else
        let testFile := filepath.Join [pathDir; marker] in
        match os.Create (umask env) f testFile with
        | Some f1 =>
            (Some pathDir,
             match os.Remove f1 testFile with Some f2 => f2 | None => f1 end)
        | None => firstWritable rest f
        end
  end.


Definition getSymlinkPathImpl (homeDir : string) : M string := fun w =>
  let pathDirs := strings.Split (PATH env) listSeparator in
  let '(symlinkDir, w1) :=
    match firstPreferred (preferredDirs homeDir) pathDirs with
    | Some d => (d, w)
    | None =>
        let '(d, f) := firstWritable pathDirs (fs w) in
        (match d with Some pathDir => pathDir | None => "" end, set_fs w f)
    end in
  if String.eqb symlinkDir ""
  then
    let symlinkDir := filepath.Join [homeDir; "bin"] in
    match os_MkdirAll symlinkDir w1 with
    | (Ok _, w2) => (Ok (exe (filepath.Join [symlinkDir; binName])), w2)
    | (Err e, w2) => (Err e, w2)
    end
  else (Ok (exe (filepath.Join [symlinkDir; binName])), w1).

(** The initial value of the variable [getSymlinkPath]. *)
Definition getSymlinkPath0 : M string :=
  (homeDir <- getHomeDir ;;
   getSymlinkPathImpl homeDir)%go.
End Effects.

(** ** Installer, activator and uninstaller

    [getInstallDir], [installVersion], [downloadBinary] and
    [getSymlinkPath] are variables of function type in the program (its
    tests assign them); the functions that call them take them as
    parameters here. *)

Section Program.
Variable env : Env.

Definition downloadBinaryImpl (url destPath : string) : M unit :=
  (modify (print ("Downloading from: " ++ url)) ;;;
   resp <- (fun w => let '(r, elapsed) := http_get env (clock w) url in
                     (Ok r, sent url elapsed w)) ;;
   match resp with
   | TransportError => fail (Wrap "HTTP request failed" (SysError "Get" url))
   | Reply status body =>
       if negb (status =? 200)%Z
       then fail (Errorf ("failed to download: HTTP status " ++ itoa status))
       else
         r <- try (os_Create env destPath) ;;
         match r with
         | Err e => fail (Wrap "failed to create output file" e)
         | Ok _ =>
             modify (fun w => set_fs w (os.write (fs w) destPath body)) ;;;
             r <- (if isWindows env then ret (Ok tt)
                   else try (os_Chmod destPath os.mode_0755)) ;;
             match r with
             | Err e => fail (Wrap "failed to set executable permissions" e)
             | Ok _ => modify (print "Download completed successfully!")
             end
         end
   end)%go.

Section Seams.
Variable getInstallDir : M string.
Variable installVersion : string -> M unit.
Variable downloadBinary : string -> string -> M unit.
Variable getSymlinkPath : M string.

Definition ensureInstallDir : M unit :=
  (installPath <- getInstallDir ;;
   os_MkdirAll installPath)%go.

Definition unsupportedPlatform : bool :=
  String.eqb (GOOS env) "linux"
  && (String.eqb (GOARCH env) "arm64" || String.eqb (GOARCH env) "arm").

Definition armError : error :=
  Errorf "DDN CLI does not support ARM-based Linux systems".

Definition downloadURL (version : string) : string :=
  "https://graphql-engine-cdn.hasura.io/ddn/cli/v4/" ++ version
  ++ "/cli-ddn" ++ ("-" ++ GOOS env ++ "-" ++ GOARCH env).

(** The path of the program file of a version below the install
    directory. *)
Definition binPathOf (installPath version : string) : string :=
  exe env (filepath.Join [filepath.Join [installPath; version]; binName]).

(** The end of [installVersionImpl]: the downloaded program is run with
    the argument [version], and what it prints must contain the version. *)
Definition verifyDownloaded (version binPath : string) : M unit :=
  (out <- exec_version env binPath ;;
   match out with
   | None => fail (Wrap "failed to verify downloaded binary"
                        (SysError "exec" binPath))
   | Some output =>
       let installedVersion := strings.TrimSpace output in
       if negb (strings.Contains installedVersion version)
       then fail (Errorf ("downloaded binary reports version "
                          ++ installedVersion ++ ", expected " ++ version))
       else modify (print ("Successfully installed DDN CLI " ++ version))
   end)%go.

Definition installVersionImpl (version : string) : M unit :=
  (ensureInstallDir ;;;
   if unsupportedPlatform then fail armError
   else
     installPath <- getInstallDir ;;
     let versionDir := filepath.Join [installPath; version] in
     st <- os_Stat versionDir ;;
     r <- (match st with
           | os.IsNode _ => try (os_RemoveAll versionDir)
           | _ => ret (Ok tt)
           end) ;;
     match r with
     | Err e => fail (Wrap "failed to clean up existing installation" e)
     | Ok _ =>
         r <- try (os_MkdirAll versionDir) ;;
         match r with
         | Err e => fail (Wrap ("failed to create directory for version " ++ version) e)
         | Ok _ =>
             let binPath := binPathOf installPath version in
             r <- try (downloadBinary (downloadURL version) binPath) ;;
             match r with
             | Err e => fail (Wrap ("failed to download binary for version " ++ version) e)
             | Ok _ => verifyDownloaded version binPath
             end
         end
     end)%go.

(** [copyFile]: the source is opened, the destination is created (and
    so emptied), and then the bytes are read from the source as it is by
    then. *)
Definition copyFile (src dst : string) : M unit :=
  (st <- os_Stat src ;;
   match st with
   | os.IsNode _ =>
       os_Create env dst ;;;
       st <- os_Stat src ;;
       match st with
       | os.IsNode (File c perm) =>
           modify (fun w => set_fs w (os.write (fs w) dst c)) ;;;
           os_Chmod dst perm
       | _ => fail (SysError "read" src)
       end
   | _ => fail (SysError "open" src)
   end)%go.

Definition createSymlink (targetPath : string) : M unit :=
  (symlinkPath <- getSymlinkPath ;;
   old <- gets (fun w => os.Lstat (fs w) symlinkPath) ;;
   r <- (match old with
         | Some _ => try (os_Remove symlinkPath)
         | None => ret (Ok tt)
         end) ;;
   match r with
   | Err e => fail (Wrap "failed to remove existing symlink" e)
   | Ok _ =>
       r <- try (os_Symlink env targetPath symlinkPath) ;;
       match r with
       | Err _ => copyFile targetPath symlinkPath
       | Ok _ => ret tt
       end
   end)%go.

(** A call through the variable [installVersion]. *)
Definition callInstall (version : string) : M unit :=
  (modify (called version) ;;; installVersion version)%go.

(** The forced reinstall of [switchToVersion]. *)
Definition reinstall (why version : string) : M unit :=
  (modify (print ("Reinstalling version " ++ version ++ " due to " ++ why)) ;;;
   r <- try (callInstall version) ;;
   match r with
   | Err e => fail (Wrap ("failed to reinstall version " ++ version) e)
   | Ok _ => ret tt
   end)%go.

(** The first half of [switchToVersion]: the version is installed
    when its program file misses, and installed again when the file
    does not run or reports another version. *)
Definition ensureVersion (version binPath : string) : M unit :=
  (st <- os_Stat binPath ;;
   match st with
   | os.ENOENT =>
       modify (print ("Version " ++ version ++ " not found locally. Installing...")) ;;;
       r <- try (callInstall version) ;;
       match r with
       | Err e => fail (Wrap ("failed to install version " ++ version) e)
       | Ok _ => ret tt
       end
   | _ =>
       (if isWindows env then ret tt
        else
          match st with
          | os.IsNode (File _ perm) =>
              if (Z.land perm os.mode_0111 =? 0)%Z
              then (_ <- try (os_Chmod binPath os.mode_0755) ;; ret tt)
              else ret tt
          | _ => ret tt
          end) ;;;
       out <- exec_version env binPath ;;
       match out with
       | None => reinstall "verification failure" version
       | Some output =>
           let installedVersion := strings.TrimSpace output in
           if negb (strings.Contains installedVersion version)
           then reinstall "version mismatch" version
           else ret tt
       end
   end)%go.

(** The program file of a version is there, and does not run or does not
    report the version. *)
Definition unverified (f : os.FS) (version binPath : string) : Prop :=
  exists c perm,
    os.Stat f binPath = os.IsNode (File c perm)
    /\ forall output, run_version env c = Some output ->
                      strings.Contains (strings.TrimSpace output) version = false.

(** The check after the link is made: it prints, and fails nothing. *)
Definition verifyActive (version : string) : M unit :=
  (out <- exec_ddn env (run_version env) ;;
   match out with
   | None => ret tt
   | Some output =>
       let activeVersion := strings.TrimSpace output in
       if negb (strings.Contains activeVersion version)
       then modify (print ("WARNING: Active DDN CLI reports version "
                           ++ activeVersion ++ ", expected " ++ version))
       else modify (print ("Verified: Active DDN CLI is now version " ++ version))
   end)%go.

Definition alreadyUsing (version : string) : string :=
  "Already using DDN CLI version " ++ version.

(** The second half of [switchToVersion]: the link is made to lead to
    the program, unless it does already. *)
Definition activate (version binPath : string) : M unit :=
  (r <- try getSymlinkPath ;;
   match r with
   | Err e => fail (Wrap "failed to determine symlink path" e)
   | Ok symlinkPath =>
       target <- gets (fun w => os.Readlink (fs w) symlinkPath) ;;
       if match target with
          | Some t => String.eqb t binPath
          | None => false
          end
       then modify (print (alreadyUsing version))
       else
         r <- try (createSymlink binPath) ;;
         match r with
         | Err e => fail (Wrap ("failed to create symlink for version " ++ version) e)
         | Ok _ => verifyActive version
         end
   end)%go.

Definition switchToVersion (version : string) : M unit :=
  (ensureInstallDir ;;;
   installPath <- getInstallDir ;;
   let binPath := binPathOf installPath version in
   ensureVersion version binPath ;;;
   activate version binPath)%go.

Definition uninstallVersion (version : string) : M unit :=
  (installPath <- getInstallDir ;;
   let versionDir := filepath.Join [installPath; version] in
   st <- os_Stat versionDir ;;
   match st with
   | os.ENOENT => fail (Errorf ("version " ++ version ++ " is not installed"))
   | _ =>
       r <- try (os_RemoveAll versionDir) ;;
       match r with
       | Err e => fail (Wrap ("failed to uninstall version " ++ version) e)
       | Ok _ => modify (print ("Successfully uninstalled DDN CLI version " ++ version))
       end
   end)%go.
End Seams.

(** The program as it starts: every variable holds its initial value. *)
Definition installVersion0 : string -> M unit :=
  installVersionImpl (getInstallDir0 env) downloadBinaryImpl.
Definition switchToVersion0 : string -> M unit :=
  switchToVersion (getInstallDir0 env) installVersion0 (getSymlinkPath0 env).
Definition uninstallVersion0 : string -> M unit :=
  uninstallVersion (getInstallDir0 env).
End Program.

(** ** The commands that list *)

Section Listing.
Context {SV : Semver} {SS : SortSlice}.
Variable env : Env.
Variable getInstallDir : M string.
Variable installVersion : string -> M unit.
Variable getSymlinkPath : M string.
(** [survey.AskOne] on a [survey.Select]: the option chosen, or an
    error. *)
Variable askOne : string -> list string -> M string.

(** [isCurrentVersion]: [ddn --version] runs and what it prints contains
    the version. *)
Definition isCurrentVersion (version : string) : M bool :=
  (out <- exec_ddn env (run_dash_version env) ;;
   match out with
   | None => ret false
   | Some output =>
       let currentVersion := strings.TrimSpace output in
       ret (strings.Contains currentVersion version)
   end)%go.


(** The line of a release in the menu. *)
Definition optionLabel (release : Release) (isCurrent : bool) : string :=
  let current := if isCurrent then " (current)" else "" in
  let prerelease := if PreRelease release then " [pre-release]" else "" in
  TagName release ++ prerelease ++ current.

(** The loop that prepares the options. *)
Fixpoint optionsOf (releases : list Release) : M (list string) :=
  match releases with
  | [] => ret []
  | release :: rest =>
      (isCurrent <- isCurrentVersion (TagName release) ;;
       options <- optionsOf rest ;;
       ret (optionLabel release isCurrent :: options))%go
  end.

(** [strings.Split(selectedOption, " ")[0]]. *)
Definition selectedVersion (selectedOption : string) : string :=
  List.hd "" (strings.Split selectedOption " ").

Definition listAndSelectVersion : M unit :=
  (modify (print "Fetching available DDN CLI versions...") ;;;
   releases <- fetchAvailableVersions env ;;
   match releases with
   | [] => fail (Errorf "no DDN CLI releases found")
   | _ =>
       options <- optionsOf releases ;;
       selectedOption <- askOne "Select DDN CLI version to install:" options ;;
       switchToVersion env getInstallDir installVersion getSymlinkPath
         (selectedVersion selectedOption)
   end)%go.
End Listing.

(** ** A concrete world, for running the program *)

Module Example.

Definition release (tag : string) (pre draft : bool) : Release :=
  {| TagName := tag; Name := tag; Assets := []; PreRelease := pre; Draft := draft |}.

(** The catalog of the specification's example. *)
Definition catalog : list Release :=
  [release "v1.0.0" false true; release "v2.0.0" true false;
   release "v1.5.0" false false; release "v3.0.0" false false].

(** A program file is the text [ddn ] and the version it reports. *)
Definition reports (content : string) : option string :=
  if String.prefix "ddn " content
  then Some ("DDN CLI Version: " ++ strings.TrimPrefix content "ddn " ++ "
")
  else None.

Definition cdn : string := "https://graphql-engine-cdn.hasura.io/ddn/cli/v4/".

(** A server that has the catalog, and for the version [tag] a program
    that reports [tag]. *)
Definition server (url : string) : Response :=
  if String.eqb url releasesURL then Reply 200 "catalog"
  else if String.prefix cdn url
  then Reply 200 ("ddn " ++ List.hd "" (strings.Split (strings.TrimPrefix url cdn) "/"))
  else Reply 404 "".

(** Three releases, the last with a tag that is no version. *)
Definition mixed : list Release :=
  [release "v10.0.0" false false; release "v9.0.0" false false;
   release "v1x" false false].

(** The environment of a Linux user, given the server, the search list
    and whether links can be made. *)
Definition env_with (srv : string -> Response) (path : string) (links : bool) : Env :=
  {| GOOS := "linux"; GOARCH := "amd64";
     HOME := Some "/home/u"; PATH := path;
     umask := 18; symlinks := links;
     validURL := fun _ => true;
     http_get := fun _ url => (srv url, 5 * second);
     json_Decode := fun body => if String.eqb body "catalog" then Some catalog else None;
     run_version := reports;
     run_dash_version := reports |}.

Definition env : Env := env_with server "/usr/bin:/home/u/bin" true.

(** A Linux machine with an ARM processor. *)
Definition arm : Env :=
  {| GOOS := "linux"; GOARCH := "arm64";
     HOME := Some "/home/u"; PATH := "/usr/bin:/home/u/bin";
     umask := 18; symlinks := true;
     validURL := fun _ => true;
     http_get := fun _ url => (server url, 5 * second);
     json_Decode := fun _ => None;
     run_version := reports;
     run_dash_version := reports |}.

(** The same with no network. *)
Definition offline : Env :=
  env_with (fun _ => TransportError) "/usr/bin:/home/u/bin" true.

Definition disk : gmap string Node :=
  list_to_map [("/", Dir true); ("/home", Dir true); ("/home/u", Dir true);
               ("/home/u/bin", Dir true); ("/usr", Dir false);
               ("/usr/bin", Dir false)].

(** The world at the start of a run, long after the origin of time. *)
Definition start : World :=
  {| versionCache := []; versionCacheTime := 0; cachePrerelease := false;
     includePrerelease := false; clock := 63900000000 * second;
     fs := disk; requests := []; stdout := []; installCalls := [] |}.

(** A world whose cache holds the catalog, stored ten minutes ago for a
    run without pre-releases. *)
Definition warm : World :=
  set_cache start [release "v3.0.0" false false; release "v1.5.0" false false]
            (clock start - 600 * second) false.

(** A world whose cache was stored ten minutes ago with no release in it. *)
Definition hollow : World :=
  set_cache start [] (clock start - 600 * second) false.

(** Version v3.0.0 is installed and active: the link in [~/bin] leads to
    its program. *)
Definition active : World :=
  set_fs start
    (<["/home/u/bin/ddn" := Symlink "/home/u/.ddnswitch/v3.0.0/ddn"]>
       (<["/home/u/.ddnswitch/v3.0.0/ddn" := File "ddn v3.0.0" os.mode_0755]>
          (<["/home/u/.ddnswitch/v3.0.0" := Dir true]>
             (<["/home/u/.ddnswitch" := Dir true]> disk)))).

(** The directory of v3.0.0 holds a program that reports v2.9.0, without
    the execute bits. *)
Definition corrupted : World :=
  set_fs start
    (<["/home/u/.ddnswitch/v3.0.0/ddn" := File "ddn v2.9.0" 420]>
       (<["/home/u/.ddnswitch/v3.0.0" := Dir true]>
          (<["/home/u/.ddnswitch" := Dir true]> disk))).


(** The home directory is not known. *)
Definition homeless : Env :=
  {| GOOS := "linux"; GOARCH := "amd64";
     HOME := None; PATH := "/usr/bin:/home/u/bin";
     umask := 18; symlinks := true;
     validURL := fun _ => true;
     http_get := fun _ url => (server url, 5 * second);
     json_Decode := fun _ => None;
     run_version := reports;
     run_dash_version := reports |}.


(** A user who takes the first option of the menu. *)
Definition firstOption (message : string) (options : list string) : M string :=
  match options with
  | option :: _ => ret option
  | [] => fail (Errorf "interrupt")
  end.

End Example.

(** * Theorems *)

(** ** The version cache *)

Section CacheFacts.
Context {SV : Semver} {SS : SortSlice}.
Variable env : Env.

Lemma refresh_requests (w : World) :
  validURL env releasesURL = true ->
  requests (snd (refresh env w)) = releasesURL :: requests w.
Proof.
  intros Hurl. unfold refresh, client_Do. rewrite Hurl. simpl.
  destruct (http_get env (clock w) releasesURL) as [resp elapsed].
  destruct (60 * second <=? elapsed)%Z; simpl.
  - reflexivity.
  - destruct resp as [|status body]; simpl; [reflexivity|].
    destruct (status =? 200)%Z; simpl; [|reflexivity].
    destruct (json_Decode env body); reflexivity.
Qed.

Lemma refresh_ok (w w' : World) (rs : list Release) :
  refresh env w = (Ok rs, w') ->
  cache_of w' = (rs, clock w', includePrerelease w)
  /\ requests w' = releasesURL :: requests w.
Proof.
  unfold refresh, client_Do.
  destruct (validURL env releasesURL); simpl; [|discriminate].
  destruct (http_get env (clock w) releasesURL) as [resp elapsed].
  destruct (60 * second <=? elapsed)%Z; simpl; [discriminate|].
  destruct resp as [|status body]; simpl; [discriminate|].
  destruct (status =? 200)%Z; simpl; [|discriminate].
  destruct (json_Decode env body); [|discriminate].
  intros H; inversion H; subst; clear H. split; reflexivity.
Qed.

Lemma refresh_err (w w' : World) (e : error) :
  refresh env w = (Err e, w') -> cache_of w' = cache_of w.
Proof.
  unfold refresh, client_Do.
  destruct (validURL env releasesURL); simpl;
    [|intros H; inversion H; reflexivity].
  destruct (http_get env (clock w) releasesURL) as [resp elapsed].
  destruct (60 * second <=? elapsed)%Z; simpl;
    [intros H; inversion H; reflexivity|].
  destruct resp as [|status body]; simpl;
    [intros H; inversion H; reflexivity|].
  destruct (status =? 200)%Z; simpl;
    [|intros H; inversion H; reflexivity].
  destruct (json_Decode env body); intros H; inversion H; reflexivity.
Qed.


Lemma miss_when_empty (w : World) :
  versionCache w = [] -> cache_hit w = false.
Proof.
  intros Hnil. unfold cache_hit. rewrite Hnil. simpl.
  rewrite andb_false_r. reflexivity.
Qed.

Lemma hit_when_fresh (w : World) :
  versionCache w <> [] ->
  time_Since w (versionCacheTime w) < cacheTTL ->
  cachePrerelease w = includePrerelease w ->
  cache_hit w = true.
Proof.
  intros Hne Hage Hflag. unfold cache_hit.
  rewrite Hflag, Bool.eqb_reflx, andb_true_r.
  apply andb_true_intro; split.
  - apply Z.ltb_lt; exact Hage.
  - apply Z.ltb_lt. destruct (versionCache w); [contradiction|simpl; lia].
Qed.

End CacheFacts.



(** C5.  A call of [fetchAvailableVersions] that returns an error leaves
    the cached list, its time and its flag as they were; and every failure
    of the slow path is such a call: the request that cannot be created,
    the transport error or timeout, the status other than 200, the body
    that does not decode. *)
Theorem C5_failed_fetch_keeps_cache {SV : Semver} {SS : SortSlice}
        (env : Env) (w : World) :
  (forall e w', fetchAvailableVersions env w = (Err e, w') ->
                cache_of w' = cache_of w)
  /\ (cache_hit w = false ->
      (validURL env releasesURL = false
       \/ 60 * second <= snd (http_get env (clock w) releasesURL)
       \/ fst (http_get env (clock w) releasesURL) = TransportError
       \/ (exists status body,
              fst (http_get env (clock w) releasesURL) = Reply status body
              /\ (status <> 200 \/ json_Decode env body = None))) ->
      exists e, fst (fetchAvailableVersions env w) = Err e).
Proof.
  split.
  - intros e w'. unfold fetchAvailableVersions.
    destruct (cache_hit w); [discriminate|]. apply refresh_err.
  - intros Hmiss Hcause. unfold fetchAvailableVersions. rewrite Hmiss.
    unfold refresh, client_Do.
    destruct (validURL env releasesURL) eqn:Hurl; simpl; [|eauto].
    destruct (http_get env (clock w) releasesURL) as [resp elapsed].
    simpl in Hcause.
    destruct (60 * second <=? elapsed)%Z eqn:Hlate; simpl; [eauto|].
    apply Z.leb_gt in Hlate.
    destruct Hcause as [H | [H | [H | (status & body & H & Hbad)]]].
    + discriminate.
    + lia.
    + subst resp. simpl. eauto.
    + subst resp. simpl.
      destruct (status =? 200)%Z eqn:Hs; simpl; [|eauto].
      apply Z.eqb_eq in Hs.
      destruct Hbad as [Hbad | Hbad]; [contradiction|].
      rewrite Hbad. eauto.
Qed.

(** C5 at work: with no network the warm cache, asked with
    pre-releases, fails and is kept. *)
Lemma C5_witness :
  cache_of (snd (fetchAvailableVersions Example.offline
                   (set_flag true Example.warm)))
  = cache_of (set_flag true Example.warm).
Proof.
  pose proof (@C5_failed_fetch_keeps_cache NumericSemver.numeric
                InsertionSort.insertion Example.offline
                (set_flag true Example.warm)) as [Hkeep _].
  eapply Hkeep. vm_compute. reflexivity.
Defined.

(** C9.  When the cached list is empty the call takes the slow path, and
    a request is sent, even when the entry is younger than the TTL and its
    flag is the flag of the request. *)
Theorem C9_empty_cache_is_never_served {SV : Semver} {SS : SortSlice}
        (env : Env) (w : World) :
  versionCache w = [] ->
  fetchAvailableVersions env w = refresh env w
  /\ (validURL env releasesURL = true ->
      requests (snd (fetchAvailableVersions env w)) = releasesURL :: requests w).
Proof.
  intros Hnil. unfold fetchAvailableVersions.
  rewrite (miss_when_empty w Hnil). split; [reflexivity|].
  apply refresh_requests.
Qed.

(** C9 at work: the empty cache of ten minutes ago, same flag. *)
Lemma C9_witness :
  time_Since Example.hollow (versionCacheTime Example.hollow) < cacheTTL
  /\ cachePrerelease Example.hollow = includePrerelease Example.hollow
  /\ requests (snd (fetchAvailableVersions Example.env Example.hollow))
     = [releasesURL].
Proof.
  split; [vm_compute; reflexivity|]. split; [reflexivity|].
  apply (@C9_empty_cache_is_never_served NumericSemver.numeric
           InsertionSort.insertion Example.env Example.hollow);
    reflexivity.
Defined.

(** ** The uninstaller *)



(** ** Facts on strings *)

(** One step of [append], which [simpl] leaves alone. *)
Ltac app_step := unfold String.append in *; fold String.append in *.

Lemma prefix_app (p s : string) :
  String.prefix p s = true <-> exists post, s = p ++ post.
Proof.
  revert s. induction p as [|c p IH]; intros s.
  - split; [intros _; exists s; reflexivity | intros _; destruct s; reflexivity].
  - destruct s as [|d s]; simpl.
    + split; [discriminate | intros [post H]; app_step; discriminate].
    + destruct (Ascii.ascii_dec c d) as [->|Hne].
      * rewrite IH. split; intros [post H]; exists post; app_step.
        -- rewrite H. reflexivity.
        -- inversion H. reflexivity.
      * split; [discriminate|]. intros [post H]. app_step.
        inversion H. congruence.
Qed.

Lemma Contains_app (s sub : string) :
  strings.Contains s sub = true <-> exists pre post, s = pre ++ sub ++ post.
Proof.
  induction s as [|c s IH]; cbn [strings.Contains].
  - rewrite orb_false_r, prefix_app. split.
    + intros [post H]. exists "", post. exact H.
    + intros (pre & post & H). destruct pre; app_step.
      * exists post. exact H.
      * discriminate.
  - rewrite orb_true_iff, prefix_app, IH. split.
    + intros [[post H] | (pre & post & H)].
      * exists "", post. exact H.
      * exists (String c pre), post. app_step. rewrite H. reflexivity.
    + intros (pre & post & H). destruct pre as [|d pre]; app_step.
      * left. exists post. exact H.
      * right. inversion H. exists pre, post. reflexivity.
Qed.

Lemma TrimLeft_app (s : string) : exists l, s = l ++ strings.TrimLeft s.
Proof.
  induction s as [|c s [l IH]]; simpl.
  - exists "". reflexivity.
  - destruct (strings.isSpace c).
    + exists (String c l). app_step. f_equal. exact IH.
    + exists "". reflexivity.
Qed.

Lemma TrimRight_app (s : string) : exists r, s = strings.TrimRight s ++ r.
Proof.
  induction s as [|c s [r IH]]; simpl.
  - exists "". reflexivity.
  - destruct (strings.TrimRight s) as [|d t].
    + destruct (strings.isSpace c).
      * exists (String c s). reflexivity.
      * exists s. reflexivity.
    + exists r. app_step. f_equal. exact IH.
Qed.

Lemma append_assoc (a b c : string) : (a ++ b) ++ c = a ++ (b ++ c).
Proof.
  induction a as [|x a IH]; app_step; [reflexivity | rewrite IH; reflexivity].
Qed.

(** What contains the trimmed output, the output contains. *)
Lemma Contains_TrimSpace (s sub : string) :
  strings.Contains (strings.TrimSpace s) sub = true ->
  strings.Contains s sub = true.
Proof.
  rewrite !Contains_app. intros (pre & post & H).
  destruct (TrimLeft_app s) as [l Hl].
  destruct (TrimRight_app (strings.TrimLeft s)) as [r Hr].
  unfold strings.TrimSpace in H.
  exists (l ++ pre), (post ++ r).
  rewrite Hl at 1. rewrite Hr at 1. rewrite H.
  rewrite !append_assoc. reflexivity.
Qed.

(** ** The installer *)

Lemma fsdo_requests (op : os.FS -> option os.FS) (e : error) (w : World) :
  requests (snd (fsdo op e w)) = requests w.
Proof. unfold fsdo. destruct (op (fs w)); reflexivity. Qed.

Lemma ensureInstallDir0_requests (env : Env) (w : World) :
  requests (snd (ensureInstallDir (getInstallDir0 env) w)) = requests w.
Proof.
  unfold ensureInstallDir, getInstallDir0, getHomeDir, bind.
  destruct (HOME env); simpl; [|reflexivity].
  unfold os_MkdirAll.
  match goal with
  | |- context [fsdo ?op ?e w] =>
      pose proof (fsdo_requests op e w) as H; destruct (fsdo op e w) as [[u|x] w']
  end; exact H.
Qed.

(** C7.  On Linux with the architecture [arm] or [arm64],
    [installVersionImpl] ends right after [ensureInstallDir]: with the
    error that says ARM-based Linux is not supported (or with the error of
    [ensureInstallDir], when that fails first).  Whatever the variable
    [downloadBinary] holds is not called, and no request is sent. *)
Theorem C7_arm_linux_is_rejected (env : Env)
        (downloadBinary : string -> string -> M unit)
        (version : string) (w : World) :
  GOOS env = "linux" ->
  GOARCH env = "arm" \/ GOARCH env = "arm64" ->
  installVersionImpl env (getInstallDir0 env) downloadBinary version w
  = match ensureInstallDir (getInstallDir0 env) w with
    | (Ok _, w') => (Err armError, w')
    | (Err e, w') => (Err e, w')
    end
  /\ (exists e, fst (installVersion0 env version w) = Err e)
  /\ requests (snd (installVersion0 env version w)) = requests w.
Proof.
  intros Hos Harch.
  assert (Hbad : unsupportedPlatform env = true).
  { unfold unsupportedPlatform. rewrite Hos.
    destruct Harch as [-> | ->]; reflexivity. }
  assert (Heq : forall dl,
             installVersionImpl env (getInstallDir0 env) dl version w
             = match ensureInstallDir (getInstallDir0 env) w with
               | (Ok _, w') => (Err armError, w')
               | (Err e, w') => (Err e, w')
               end).
  { intros dl. unfold installVersionImpl, bind. rewrite Hbad.
    destruct (ensureInstallDir (getInstallDir0 env) w) as [[u|e] w'];
      reflexivity. }
  split; [apply Heq|]. unfold installVersion0. rewrite Heq.
  pose proof (ensureInstallDir0_requests env w) as Hreq.
  destruct (ensureInstallDir (getInstallDir0 env) w) as [[u|e] w'];
    simpl in *; eauto.
Qed.

Lemma bind_ok {A B : Type} (m : M A) (k : A -> M B) (w w' : World) (b : B) :
  bind m k w = (Ok b, w') ->
  exists a w1, m w = (Ok a, w1) /\ k a w1 = (Ok b, w').
Proof.
  unfold bind. destruct (m w) as [[a|e] w1]; [eauto | discriminate].
Qed.

Lemma try_ok {A : Type} (m : M A) (w w' : World) (r : result A) :
  try m w = (Ok r, w') -> m w = (r, w').
Proof.
  unfold try. destruct (m w) as [r0 w0]. intros H. inversion H. reflexivity.
Qed.

(** A successful verification: the program ran and reported the version. *)
Lemma verifyDownloaded_ok (env : Env) (version binPath : string)
      (w w' : World) :
  verifyDownloaded env version binPath w = (Ok tt, w') ->
  exists content output,
    runnable env (fs w) binPath = Some content
    /\ run_version env content = Some output
    /\ strings.Contains (strings.TrimSpace output) version = true
    /\ w' = print ("Successfully installed DDN CLI " ++ version) w.
Proof.
  unfold verifyDownloaded, bind, exec_version, gets.
  destruct (runnable env (fs w) binPath) as [content|]; simpl;
    [|discriminate].
  destruct (run_version env content) as [output|] eqn:Hout; simpl;
    [|discriminate].
  destruct (strings.Contains (strings.TrimSpace output) version) eqn:Hc;
    simpl; [|discriminate].
  intros H. inversion H. exists content, output. auto.
Qed.

(** A successful install ends with a successful verification. *)
Lemma installVersionImpl_ok (env : Env)
      (downloadBinary : string -> string -> M unit)
      (home version : string) (w w' : World) :
  HOME env = Some home ->
  installVersionImpl env (getInstallDir0 env) downloadBinary version w
  = (Ok tt, w') ->
  exists w4,
    verifyDownloaded env version
      (binPathOf env (filepath.Join [home; installDir]) version) w4
    = (Ok tt, w').
Proof.
  intros Hhome H. unfold installVersionImpl in H.
  apply bind_ok in H as (u & w1 & _ & H).
  destruct (unsupportedPlatform env); [discriminate|].
  apply bind_ok in H as (installPath & w1' & Hgid & H).
  unfold getInstallDir0, getHomeDir in Hgid. rewrite Hhome in Hgid.
  inversion Hgid; subst; clear Hgid.
  apply bind_ok in H as (st & w1'' & _ & H).
  apply bind_ok in H as (r & w2 & _ & H).
  destruct r as [u1|e1]; [|discriminate].
  apply bind_ok in H as (r & w3 & _ & H).
  destruct r as [u2|e2]; [|discriminate].
  apply bind_ok in H as (r & w4 & _ & H).
  destruct r as [u3|e3]; [|discriminate].
  exists w4. exact H.
Qed.

(** C6.  [installVersionImpl] returns without error only when the program
    it has downloaded runs with the argument [version] and prints a text
    that contains the version: the file is then on disk, runnable, and its
    output, trimmed or not, contains the version.  A program that does not
    run, or whose trimmed output lacks the version, makes the verification
    fail with an error, and the world is left as the download left it. *)
Theorem C6_install_succeeds_only_verified (env : Env)
        (downloadBinary : string -> string -> M unit)
        (home version : string) (w w' : World) :
  HOME env = Some home ->
  let binPath := binPathOf env (filepath.Join [home; installDir]) version in
  (installVersionImpl env (getInstallDir0 env) downloadBinary version w
   = (Ok tt, w') ->
   exists content output,
     runnable env (fs w') binPath = Some content
     /\ run_version env content = Some output
     /\ strings.Contains (strings.TrimSpace output) version = true
     /\ strings.Contains output version = true)
  /\ (forall w2,
        (exec_version env binPath w2 = (Ok None, w2)
         \/ exists output,
             exec_version env binPath w2 = (Ok (Some output), w2)
             /\ strings.Contains (strings.TrimSpace output) version = false) ->
        exists e, verifyDownloaded env version binPath w2 = (Err e, w2)).
Proof.
  intros Hhome binPath. split.
  - intros H.
    apply (installVersionImpl_ok env downloadBinary home version w w' Hhome)
      in H as (w4 & H). fold binPath in H.
    apply verifyDownloaded_ok in H
      as (content & output & Hrun & Hout & Hc & ->).
    exists content, output. simpl. repeat split; auto.
    apply Contains_TrimSpace. exact Hc.
  - intros w2 [Hfail | (output & Hexec & Hlack)];
      unfold verifyDownloaded, bind.
    + rewrite Hfail. eauto.
    + rewrite Hexec, Hlack. simpl. eauto.
Qed.

(** C7 at work: on the ARM machine the install fails and sends nothing. *)
Lemma C7_witness :
  (exists e, fst (installVersion0 Example.arm "v3.0.1" Example.start) = Err e)
  /\ requests (snd (installVersion0 Example.arm "v3.0.1" Example.start)) = [].
Proof.
  apply (C7_arm_linux_is_rejected Example.arm
           (downloadBinaryImpl Example.arm) "v3.0.1"
           Example.start); [reflexivity | right; reflexivity].
Defined.

(** C6 at work: the install of v3.0.1 succeeds, and the program it leaves
    reports a text that contains v3.0.1. *)
Lemma C6_witness :
  exists w',
    installVersion0 Example.env "v3.0.1" Example.start = (Ok tt, w')
    /\ exists content output,
         runnable Example.env (fs w') "/home/u/.ddnswitch/v3.0.1/ddn"
         = Some content
         /\ run_version Example.env content = Some output
         /\ strings.Contains (strings.TrimSpace output) "v3.0.1" = true
         /\ strings.Contains output "v3.0.1" = true.
Proof.
  eexists. split; [vm_compute; reflexivity|].
  apply (C6_install_succeeds_only_verified Example.env
           (downloadBinaryImpl Example.env) "/home/u" "v3.0.1" Example.start);
    [reflexivity | vm_compute; reflexivity].
Defined.

(** ** Orders and the sort *)










Section InsertionSortFacts.
Context {A : Type} (less : A -> A -> bool).










End InsertionSortFacts.


(** ** The catalog snapshot *)

Section SnapshotFacts.
Context {SV : Semver} {SS : SortSlice}.




End SnapshotFacts.



(** With tags of both kinds the order can fail: of v10.0.0, v9.0.0 and
    v1x the last is no version, it is compared with the others as a
    string, and as a string it is greater than v10.0.0, which the sort
    leaves before it. *)
Lemma mixed_snapshot_not_ordered :
  ~ ordered (@less NumericSemver.numeric)
      (@validReleases NumericSemver.numeric InsertionSort.insertion
         false Example.mixed).
Proof.
  assert (Hl : @validReleases NumericSemver.numeric InsertionSort.insertion
                 false Example.mixed = Example.mixed)
    by (vm_compute; reflexivity).
  rewrite Hl. unfold Example.mixed. intros Hsorted.
  inversion Hsorted as [|? ? _ Hfirst]; subst.
  inversion Hfirst as [|? ? _ Hrest]; subst.
  inversion Hrest as [|? ? Hlast _]; subst.
  vm_compute in Hlast. discriminate.
Qed.

(** ** More on the version cache *)

(** The window of the cache.  After a refresh that stored a non-empty
    list, a call with the same flag less than an hour later returns that
    list and sends nothing; an hour later or more, it sends a request
    again. *)
Theorem cache_window {SV : Semver} {SS : SortSlice}
        (env : Env) (w w1 : World) (rs : list Release) (d : Z) :
  refresh env w = (Ok rs, w1) ->
  rs <> [] ->
  (0 <= d < cacheTTL ->
   fetchAvailableVersions env (elapse d w1) = (Ok rs, elapse d w1))
  /\ (cacheTTL <= d ->
      validURL env releasesURL = true ->
      requests (snd (fetchAvailableVersions env (elapse d w1)))
      = releasesURL :: requests w1).
Proof.
  intros Href Hne.
  assert (Hflag : includePrerelease w1 = includePrerelease w).
  { revert Href. unfold refresh, client_Do.
    destruct (validURL env releasesURL); simpl; [|discriminate].
    destruct (http_get env (clock w) releasesURL) as [resp elapsed].
    destruct (60 * second <=? elapsed)%Z; simpl; [discriminate|].
    destruct resp as [|status body]; simpl; [discriminate|].
    destruct (status =? 200)%Z; simpl; [|discriminate].
    destruct (json_Decode env body); [|discriminate].
    intros H; inversion H; reflexivity. }
  apply refresh_ok in Href as [Hcache _]. unfold cache_of in Hcache.
  inversion Hcache as [[Hlist Htime Hpre]].
  assert (Hage : time_Since (elapse d w1) (versionCacheTime (elapse d w1))
                 = Z.max minDuration (Z.min maxDuration d)).
  { unfold time_Since. simpl. rewrite Htime. f_equal. f_equal. lia. }
  split.
  - intros Hd. unfold fetchAvailableVersions.
    rewrite hit_when_fresh.
    + simpl. rewrite Hlist. reflexivity.
    + simpl. rewrite Hlist. exact Hne.
    + rewrite Hage.
      unfold minDuration, maxDuration, cacheTTL, hour, second in *. lia.
    + simpl. congruence.
  - intros Hd Hurl. unfold fetchAvailableVersions.
    assert (Hmiss : cache_hit (elapse d w1) = false).
    { unfold cache_hit. rewrite Hage.
      replace (Z.max minDuration (Z.min maxDuration d) <? cacheTTL)%Z
        with false; [reflexivity|].
      symmetry. apply Z.ltb_ge.
      unfold minDuration, maxDuration, cacheTTL, hour, second in *. lia. }
    rewrite Hmiss. rewrite refresh_requests by exact Hurl. reflexivity.
Qed.

(** The window at work: a refresh at the start, and a second call ten
    minutes later. *)
Lemma cache_window_witness :
  exists rs w1,
    refresh Example.env Example.start = (Ok rs, w1)
    /\ fetchAvailableVersions Example.env (elapse (600 * second) w1)
       = (Ok rs, elapse (600 * second) w1).
Proof.
  eexists. eexists. split; [vm_compute; reflexivity|].
  eapply (@cache_window NumericSemver.numeric InsertionSort.insertion
            Example.env Example.start);
    [vm_compute; reflexivity | discriminate
    | vm_compute; split; [discriminate | reflexivity]].
Defined.

(** ** Facts on the file system *)

Lemma set_fs_same (w : World) : set_fs w (fs w) = w.
Proof. destruct w; reflexivity. Qed.

(** A path with no entry leads to itself. *)
Lemma resolve_absent (n : nat) (f : os.FS) (p : string) :
  f !! p = None -> os.resolve n f p = Some p.
Proof. intros H. destruct n; cbn [os.resolve]; rewrite H; reflexivity. Qed.

(** A path whose entry is no link leads to itself. *)
Lemma resolve_not_link (n : nat) (f : os.FS) (p : string) :
  (forall t, f !! p <> Some (Symlink t)) -> os.resolve n f p = Some p.
Proof.
  intros H. destruct n; cbn [os.resolve]; destruct (f !! p) as [[| |t]|] eqn:E;
    try reflexivity; exfalso; apply (H t); reflexivity.
Qed.

(** A new entry that is no link, at a path [p] that had none or none that
    is a link, changes no resolution. *)
Lemma resolve_insert (f : os.FS) (p : string) (v : Node) :
  (forall t, f !! p <> Some (Symlink t)) ->
  (forall t, v <> Symlink t) ->
  forall (n : nat) (x : string),
    os.resolve n (<[p := v]> f) x = os.resolve n f x.
Proof.
  intros Hp Hv n.
  induction n as [|n IH]; intros x; cbn [os.resolve]; unfold os.FS in *.
  - destruct (decide (p = x)) as [->|Hx].
    + rewrite lookup_insert_eq.
      destruct v as [| |t]; [| |exfalso; apply (Hv t); reflexivity];
        destruct (f !! x) as [[| |t]|] eqn:E; try reflexivity;
          exfalso; apply (Hp t); reflexivity.
    + rewrite lookup_insert_ne by exact Hx. reflexivity.
  - destruct (decide (p = x)) as [->|Hx].
    + rewrite lookup_insert_eq.
      destruct v as [| |t]; [| |exfalso; apply (Hv t); reflexivity];
        destruct (f !! x) as [[| |t]|] eqn:E; try reflexivity;
          exfalso; apply (Hp t); reflexivity.
    + rewrite lookup_insert_ne by exact Hx.
      destruct (f !! x) as [[| |t]|]; try reflexivity. apply IH.
Qed.


Lemma Stat_insert_self (f : os.FS) (p : string) (v : Node) :
  (forall t, v <> Symlink t) ->
  os.Stat (<[p := v]> f) p = os.IsNode v.
Proof.
  intros Hv. unfold os.Stat, os.FS in *. rewrite resolve_not_link.
  - unfold os.FS. rewrite lookup_insert_eq. reflexivity.
  - intros t. unfold os.FS. rewrite lookup_insert_eq. intros H. inversion H.
    apply (Hv t). assumption.
Qed.



(** What [os.MkdirAll] returns without error has a directory at the path. *)
Lemma MkdirAllFrom_dir (n : nat) :
  forall (f f' : os.FS) (p : string),
    os.MkdirAllFrom n f p = Some f' ->
    exists wr, os.Stat f' p = os.IsNode (Dir wr).
Proof.
  induction n as [|n IH]; intros f f' p; cbn [os.MkdirAllFrom].
  - destruct (os.Stat f p) as [[wr| |]| |] eqn:Hs; try discriminate.
    intros H; inversion H; subst. eauto.
  - destruct (os.Stat f p) as [[wr| |]| |] eqn:Hs; try discriminate;
      try (intros H; inversion H; subst; eauto; fail).
    all: destruct (String.eqb (filepath.Dir p) p); [discriminate|].
    all: destruct (os.MkdirAllFrom n f (filepath.Dir p)) as [f1|]; [|discriminate].
    all: destruct (os.Mkdir f1 p) as [f2|] eqn:Hm.
    all: try (intros H; inversion H; subst f'; clear H;
              unfold os.Mkdir in Hm; destruct (f1 !! p); [discriminate|];
              destruct (os.writableDir f1 (filepath.Dir p)); [|discriminate];
              inversion Hm; subst; exists true; apply Stat_insert_self;
              discriminate).
    all: unfold os.Lstat; destruct (f1 !! p) as [[wr| |]|] eqn:Hl;
      try discriminate; intros H; inversion H; subst f'; exists wr;
      unfold os.Stat; rewrite resolve_not_link;
      [rewrite Hl; reflexivity | intros t; rewrite Hl; discriminate].
Qed.

(** ** Facts on the symlink resolver *)












(** ** Facts on the activator *)

Lemma bind_step {A B : Type} (m : M A) (k : A -> M B) (w w1 : World) (a : A) :
  m w = (Ok a, w1) -> bind m k w = k a w1.
Proof. intros H. unfold bind. rewrite H. reflexivity. Qed.

Lemma bind_stop {A B : Type} (m : M A) (k : A -> M B) (w w1 : World) (e : error) :
  m w = (Err e, w1) -> bind m k w = (Err e, w1).
Proof. intros H. unfold bind. rewrite H. reflexivity. Qed.

Lemma MkdirAll_existing (f : os.FS) (p : string) (wr : bool) :
  os.Stat f p = os.IsNode (Dir wr) -> os.MkdirAll f p = Some f.
Proof.
  intros H. unfold os.MkdirAll.
  destruct (String.length p); cbn [os.MkdirAllFrom]; rewrite H; reflexivity.
Qed.

(** [ensureInstallDir] changes nothing when the directory is there. *)
Lemma ensureInstallDir_existing (getInstallDir : M string)
      (installPath : string) (wr : bool) (w : World) :
  getInstallDir w = (Ok installPath, w) ->
  os.Stat (fs w) installPath = os.IsNode (Dir wr) ->
  ensureInstallDir getInstallDir w = (Ok tt, w).
Proof.
  intros Hdir Hstat. unfold ensureInstallDir.
  rewrite (bind_step _ _ _ _ _ Hdir). unfold os_MkdirAll, fsdo.
  rewrite (MkdirAll_existing _ _ _ Hstat), set_fs_same. reflexivity.
Qed.





(** ** Facts on the calls through [installVersion] *)

Lemma quiet_ret {A : Type} (a : A) : quiet (ret a).
Proof. intros w. reflexivity. Qed.

Lemma quiet_fail {A : Type} (e : error) : quiet (@fail A e).
Proof. intros w. reflexivity. Qed.

Lemma quiet_gets {A : Type} (f : World -> A) : quiet (gets f).
Proof. intros w. reflexivity. Qed.

Lemma quiet_modify (f : World -> World) :
  (forall w, installCalls (f w) = installCalls w) -> quiet (modify f).
Proof. intros H w. apply H. Qed.

Lemma quiet_bind {A B : Type} (m : M A) (k : A -> M B) :
  quiet m -> (forall a, quiet (k a)) -> quiet (bind m k).
Proof.
  intros Hm Hk w. unfold bind. specialize (Hm w).
  destruct (m w) as [[a|e] w1]; simpl in *; [|exact Hm].
  rewrite (Hk a w1). exact Hm.
Qed.

Lemma quiet_try {A : Type} (m : M A) : quiet m -> quiet (try m).
Proof.
  intros Hm w. unfold try. specialize (Hm w).
  destruct (m w) as [r w1]. exact Hm.
Qed.

Lemma quiet_fsdo (op : os.FS -> option os.FS) (e : error) : quiet (fsdo op e).
Proof. intros w. unfold fsdo. destruct (op (fs w)); reflexivity. Qed.

(** The steps that make up a computation without a call. *)
Ltac quiet_step :=
  first
    [ assumption
    | apply quiet_ret | apply quiet_fail | apply quiet_gets
    | apply quiet_fsdo
    | apply quiet_modify; intros ?; reflexivity
    | apply quiet_try
    | apply quiet_bind; [|intros ?]
    | match goal with
      | |- quiet (match ?x with _ => _ end) => destruct x
      | |- quiet (if ?b then _ else _) => destruct b
      end
    | progress cbv zeta ].

Ltac quiet_tac := repeat quiet_step.

Lemma quiet_getInstallDir0 (env : Env) : quiet (getInstallDir0 env).
Proof. unfold getInstallDir0, getHomeDir. quiet_tac. Qed.

Lemma quiet_getSymlinkPath0 (env : Env) : quiet (getSymlinkPath0 env).
Proof.
  unfold getSymlinkPath0, getHomeDir. quiet_tac.
  intros w. unfold getSymlinkPathImpl.
  destruct (firstPreferred _ _); [|destruct (firstWritable _ _ _) as [[d|] f]].
  all: repeat match goal with
         | |- context [if ?b then _ else _] => destruct b
         | |- context [os_MkdirAll ?p ?w0] =>
             pose proof (quiet_fsdo (fun f => os.MkdirAll f p) (SysError "mkdir" p) w0);
             unfold os_MkdirAll; destruct (fsdo _ _ w0) as [[[]|e] w1]
         end; simpl in *; auto.
Qed.

Lemma quiet_downloadBinaryImpl (env : Env) (url dest : string) :
  quiet (downloadBinaryImpl env url dest).
Proof.
  unfold downloadBinaryImpl, os_Create, os_Chmod. quiet_tac.
  intros w. destruct (http_get env (clock w) url). reflexivity.
Qed.

Lemma quiet_installVersionImpl (env : Env) (getInstallDir : M string)
      (downloadBinary : string -> string -> M unit) (version : string) :
  quiet getInstallDir -> (forall url dest, quiet (downloadBinary url dest)) ->
  quiet (installVersionImpl env getInstallDir downloadBinary version).
Proof.
  intros Hdir Hdl.
  unfold installVersionImpl, ensureInstallDir, verifyDownloaded, exec_version,
    os_MkdirAll, os_RemoveAll, os_Stat.
  quiet_tac. apply Hdl.
Qed.

Lemma quiet_installVersion0 (env : Env) (version : string) :
  quiet (installVersion0 env version).
Proof.
  apply quiet_installVersionImpl;
    [apply quiet_getInstallDir0 | intros; apply quiet_downloadBinaryImpl].
Qed.

Lemma quiet_copyFile (env : Env) (src dst : string) : quiet (copyFile env src dst).
Proof. unfold copyFile, os_Stat, os_Create, os_Chmod. quiet_tac. Qed.

Lemma quiet_createSymlink (env : Env) (getSymlinkPath : M string) (target : string) :
  quiet getSymlinkPath -> quiet (createSymlink env getSymlinkPath target).
Proof.
  intros Hlink. unfold createSymlink, os_Remove, os_Symlink. quiet_tac.
Qed.

Lemma quiet_verifyActive (env : Env) (version : string) :
  quiet (verifyActive env version).
Proof. unfold verifyActive, exec_ddn. quiet_tac. Qed.

(** A call through the variable is recorded once. *)
Lemma callInstall_once (installVersion : string -> M unit) (version : string) :
  quiet (installVersion version) ->
  forall w, installCalls (snd (callInstall installVersion version w))
            = version :: installCalls w.
Proof.
  intros Hq w. unfold callInstall, bind, modify.
  specialize (Hq (called version w)).
  destruct (installVersion version (called version w)) as [[[]|e] w1]; exact Hq.
Qed.

Lemma atMostOnce_quiet {A : Type} (version : string) (m : M A) :
  quiet m -> atMostOnce version m.
Proof. intros H w. left. apply H. Qed.

Lemma atMostOnce_bind_l {A B : Type} (version : string) (m : M A) (k : A -> M B) :
  quiet m -> (forall a, atMostOnce version (k a)) -> atMostOnce version (bind m k).
Proof.
  intros Hm Hk w. unfold bind. specialize (Hm w).
  destruct (m w) as [[a|e] w1]; simpl in *; [|left; exact Hm].
  rewrite <- Hm. apply Hk.
Qed.

Lemma atMostOnce_bind_r {A B : Type} (version : string) (m : M A) (k : A -> M B) :
  atMostOnce version m -> (forall a, quiet (k a)) -> atMostOnce version (bind m k).
Proof.
  intros Hm Hk w. unfold bind. specialize (Hm w).
  destruct (m w) as [[a|e] w1]; simpl in *; [|exact Hm].
  rewrite (Hk a w1). exact Hm.
Qed.

Lemma Stat_File (f : os.FS) (p c : string) (perm : Z) :
  os.Stat f p = os.IsNode (File c perm) ->
  exists q, os.resolve os.maxLinks f p = Some q /\ f !! q = Some (File c perm).
Proof.
  unfold os.Stat. destruct (os.resolve os.maxLinks f p) as [q|]; [|discriminate].
  destruct (f !! q) as [n|] eqn:E; [|discriminate].
  intros H. inversion H; subst. eauto.
Qed.

(** [os.Chmod] on a regular file: it cannot fail, and the file has the new
    mode and the old content. *)
Lemma Chmod_File (f : os.FS) (p c : string) (perm mode : Z) :
  os.Stat f p = os.IsNode (File c perm) ->
  exists f1, os.Chmod f p mode = Some f1
             /\ os.Stat f1 p = os.IsNode (File c mode).
Proof.
  intros Hstat. destruct (Stat_File _ _ _ _ Hstat) as (q & Hq & Hl).
  exists (<[q := File c mode]> f). split.
  - unfold os.Chmod. rewrite Hq, Hl. reflexivity.
  - unfold os.Stat. rewrite resolve_insert.
    + rewrite Hq. unfold os.FS. rewrite lookup_insert_eq. reflexivity.
    + intros t. rewrite Hl. discriminate.
    + intros t. discriminate.
Qed.

Lemma ensureVersion_missing (env : Env) (installVersion : string -> M unit)
      (version binPath : string) (w : World) :
  os.Stat (fs w) binPath = os.ENOENT ->
  ensureVersion env installVersion version binPath w
  = installed_or ("failed to install version " ++ version)
      (installVersion version
         (called version
            (print ("Version " ++ version ++ " not found locally. Installing...")
               w))).
Proof.
  intros Hstat. unfold ensureVersion, os_Stat, gets, bind. rewrite Hstat.
  unfold modify, try, callInstall, bind, modify, installed_or.
  destruct (installVersion version _) as [[[]|e] w1]; reflexivity.
Qed.

Lemma reinstall_run (installVersion : string -> M unit)
      (why version : string) (w : World) :
  reinstall installVersion why version w
  = installed_or ("failed to reinstall version " ++ version)
      (installVersion version
         (called version
            (print ("Reinstalling version " ++ version ++ " due to " ++ why) w))).
Proof.
  unfold reinstall, modify, try, callInstall, bind, modify, installed_or.
  destruct (installVersion version _) as [[[]|e] w1]; reflexivity.
Qed.

Lemma ensureVersion_unverified (env : Env) (installVersion : string -> M unit)
      (version binPath : string) (w : World) :
  unverified env (fs w) version binPath ->
  exists w1 why,
    installCalls w1 = installCalls w
    /\ ensureVersion env installVersion version binPath w
       = installed_or ("failed to reinstall version " ++ version)
           (installVersion version
              (called version
                 (print ("Reinstalling version " ++ version ++ " due to " ++ why)
                    w1))).
Proof.
  intros (c & perm & Hstat & Hno).
  assert (Hexec : forall w1,
             runnable env (fs w1) binPath = Some c ->
             exists why,
               (out <- exec_version env binPath ;;
                match out with
                | None => reinstall installVersion "verification failure" version
                | Some output =>
                    if negb (strings.Contains (strings.TrimSpace output) version)
                    then reinstall installVersion "version mismatch" version
                    else ret tt
                end)%go w1
               = installed_or ("failed to reinstall version " ++ version)
                   (installVersion version
                      (called version
                         (print ("Reinstalling version " ++ version
                                 ++ " due to " ++ why) w1)))).
  { intros w1 Hrun. unfold exec_version, gets, bind. rewrite Hrun. simpl.
    destruct (run_version env c) as [output|] eqn:Hout.
    - rewrite (Hno output eq_refl). simpl. eexists. apply reinstall_run.
    - eexists. apply reinstall_run. }
  unfold ensureVersion, os_Stat, gets. unfold bind at 1. rewrite Hstat.
  destruct (isWindows env) eqn:Hwin.
  - unfold bind at 1. unfold ret at 1.
    destruct (Hexec w) as [why Hwhy].
    { unfold runnable. rewrite Hstat, Hwin. reflexivity. }
    exists w, why. split; [reflexivity | exact Hwhy].
  - destruct (Z.land perm os.mode_0111 =? 0)%Z eqn:Hbits.
    + destruct (Chmod_File (fs w) binPath c perm os.mode_0755 Hstat)
        as (f1 & Hch & Hstat1).
      unfold bind at 1. unfold bind at 1. unfold try, os_Chmod, fsdo.
      rewrite Hch. unfold ret at 1.
      destruct (Hexec (set_fs w f1)) as [why Hwhy].
      { unfold runnable. simpl. rewrite Hstat1, Hwin. reflexivity. }
      exists (set_fs w f1), why. split; [reflexivity | exact Hwhy].
    + unfold bind at 1. unfold ret at 1.
      destruct (Hexec w) as [why Hwhy].
      { unfold runnable. rewrite Hstat, Hwin, Hbits. reflexivity. }
      exists w, why. split; [reflexivity | exact Hwhy].
Qed.


Lemma quiet_activate (env : Env) (getSymlinkPath : M string)
      (version binPath : string) :
  quiet getSymlinkPath -> quiet (activate env getSymlinkPath version binPath).
Proof.
  intros Hq.
  pose proof (quiet_createSymlink env getSymlinkPath binPath Hq) as Hcs.
  pose proof (quiet_verifyActive env version) as Hva.
  unfold activate. quiet_tac.
Qed.

(** [switchToVersion] when the install directory is there: the first half
    and then the second. *)
Lemma switchToVersion_run (env : Env)
      (getInstallDir : M string) (installVersion : string -> M unit)
      (getSymlinkPath : M string) (version installPath : string) (wr : bool)
      (w : World) :
  getInstallDir w = (Ok installPath, w) ->
  os.Stat (fs w) installPath = os.IsNode (Dir wr) ->
  switchToVersion env getInstallDir installVersion getSymlinkPath version w
  = bind (ensureVersion env installVersion version
            (binPathOf env installPath version))
         (fun _ => activate env getSymlinkPath version
                     (binPathOf env installPath version)) w.
Proof.
  intros Hdir Hstat. unfold switchToVersion.
  rewrite (bind_step _ _ _ _ _ (ensureInstallDir_existing _ _ _ _ Hdir Hstat)).
  rewrite (bind_step _ _ _ _ _ Hdir). reflexivity.
Qed.





(** [switchToVersion] calls [installVersion] at most once, and for the
    version it is given; it calls it once when the program of the version
    misses, or is there and does not run or reports another version, and
    whether that call fails or not.  The calls are counted in the world;
    what the variables hold is assumed not to touch the count. *)
Theorem switch_installs_once (env : Env)
        (getInstallDir : M string) (installVersion : string -> M unit)
        (getSymlinkPath : M string) (version : string) :
  quiet getInstallDir -> quiet (installVersion version) -> quiet getSymlinkPath ->
  atMostOnce version
    (switchToVersion env getInstallDir installVersion getSymlinkPath version)
  /\ forall installPath wr w,
      getInstallDir w = (Ok installPath, w) ->
      os.Stat (fs w) installPath = os.IsNode (Dir wr) ->
      os.Stat (fs w) (binPathOf env installPath version) = os.ENOENT
      \/ unverified env (fs w) version (binPathOf env installPath version) ->
      installCalls (snd (switchToVersion env getInstallDir installVersion
                           getSymlinkPath version w))
      = version :: installCalls w.
Proof.
  intros Hqd Hqi Hql.
  assert (Hinst : forall msg w0,
             installCalls (snd (installed_or msg
                                  (installVersion version (called version w0))))
             = version :: installCalls w0).
  { intros msg w0. pose proof (callInstall_once installVersion version Hqi w0) as H.
    unfold callInstall, bind, modify in H. unfold installed_or.
    destruct (installVersion version (called version w0)) as [[[]|e'] w1];
      exact H. }
  assert (Hre : forall why, atMostOnce version (reinstall installVersion why version)).
  { intros why w0. right. rewrite reinstall_run, Hinst. reflexivity. }
  split.
  - unfold switchToVersion.
    apply atMostOnce_bind_l;
      [unfold ensureInstallDir, os_MkdirAll; quiet_tac | intros _].
    apply atMostOnce_bind_l; [exact Hqd | intros installPath]. cbv zeta.
    apply atMostOnce_bind_r; [|intros _; apply quiet_activate; exact Hql].
    unfold ensureVersion.
    apply atMostOnce_bind_l; [unfold os_Stat; quiet_tac | intros st].
    assert (Hcheck : atMostOnce version
               (out <- exec_version env (binPathOf env installPath version) ;;
                match out with
                | None => reinstall installVersion "verification failure" version
                | Some output =>
                    if negb (strings.Contains (strings.TrimSpace output) version)
                    then reinstall installVersion "version mismatch" version
                    else ret tt
                end)%go).
    { apply atMostOnce_bind_l; [unfold exec_version; quiet_tac | intros out].
      destruct out as [output|]; [|apply Hre].
      destruct (negb _); [apply Hre | apply atMostOnce_quiet, quiet_ret]. }
    destruct st as [n| |].
    + apply atMostOnce_bind_l;
        [unfold os_Chmod; quiet_tac | intros _; exact Hcheck].
    + apply atMostOnce_bind_l; [quiet_tac | intros _].
      apply atMostOnce_bind_r; [|intros r; quiet_tac].
      intros w1. right. unfold try.
      pose proof (callInstall_once installVersion version Hqi w1) as H.
      destruct (callInstall installVersion version w1) as [r w2]. exact H.
    + apply atMostOnce_bind_l;
        [unfold os_Chmod; quiet_tac | intros _; exact Hcheck].
  - intros installPath wr w Hdir Hstat Hneed.
    rewrite (switchToVersion_run env getInstallDir _ getSymlinkPath version
               installPath wr w Hdir Hstat).
    assert (Hens : installCalls
                     (snd (ensureVersion env installVersion version
                             (binPathOf env installPath version) w))
                   = version :: installCalls w).
    { destruct Hneed as [Hno | Hun].
      - rewrite (ensureVersion_missing _ _ _ _ _ Hno), Hinst. reflexivity.
      - destruct (ensureVersion_unverified env installVersion version _ w Hun)
          as (w1 & why & Hc & Hrun).
        rewrite Hrun, Hinst, <- Hc. reflexivity. }
    unfold bind.
    destruct (ensureVersion env installVersion version
                (binPathOf env installPath version) w) as [[[]|e'] w1];
      simpl in *; [|exact Hens].
    rewrite (quiet_activate env getSymlinkPath version _ Hql w1). exact Hens.
Qed.

(** The example: the program in the directory of v3.0.0 reports v2.9.0,
    and the program's own installer is called once. *)
Lemma switch_installs_once_witness :
  installCalls
    (snd (switchToVersion Example.env (getInstallDir0 Example.env)
            (installVersion0 Example.env) (getSymlinkPath0 Example.env)
            "v3.0.0" Example.corrupted))
  = "v3.0.0" :: installCalls Example.corrupted.
Proof.
  assert (Hdir : getInstallDir0 Example.env Example.corrupted
                 = (Ok "/home/u/.ddnswitch", Example.corrupted))
    by reflexivity.
  assert (Hstat : os.Stat (fs Example.corrupted) "/home/u/.ddnswitch"
                  = os.IsNode (Dir true)) by (vm_compute; reflexivity).
  assert (Hun : unverified Example.env (fs Example.corrupted) "v3.0.0"
                  (binPathOf Example.env "/home/u/.ddnswitch" "v3.0.0")).
  { exists "ddn v2.9.0", 420. split; [vm_compute; reflexivity|].
    intros output Hout. vm_compute in Hout. inversion Hout; subst.
    vm_compute. reflexivity. }
  exact (proj2 (switch_installs_once Example.env (getInstallDir0 Example.env)
                  (installVersion0 Example.env) (getSymlinkPath0 Example.env)
                  "v3.0.0" (quiet_getInstallDir0 Example.env)
                  (quiet_installVersion0 Example.env "v3.0.0")
                  (quiet_getSymlinkPath0 Example.env))
           "/home/u/.ddnswitch" true Example.corrupted Hdir Hstat
           (or_intror Hun)).
Defined.

(** ** Facts on files written by the program *)

(** Where a resolution ends there is no link. *)
Lemma resolve_end (f : gmap string Node) (n : nat) :
  forall p q, os.resolve n f p = Some q -> forall t, f !! q <> Some (Symlink t).
Proof.
  induction n as [|n IH]; intros p q; cbn [os.resolve]; unfold os.FS in *;
    destruct (f !! p) as [[| |t']|] eqn:E; intros H t;
      try (inversion H; subst; rewrite E; discriminate).
  apply (IH _ _ H).
Qed.

(** What [os.Create] returns without error: the file system with an empty
    file where the path leads. *)
Lemma Create_spec (umask : Z) (f f1 : gmap string Node) (p : string) :
  os.Create umask f p = Some f1 ->
  exists q perm,
    os.resolve os.maxLinks f p = Some q
    /\ f1 = <[q := File "" perm]> f
    /\ (f !! q = None \/ exists c, f !! q = Some (File c perm)).
Proof.
  unfold os.Create. destruct (os.resolve os.maxLinks f p) as [q|] eqn:Hq;
    [|discriminate].
  unfold os.FS in *. destruct (f !! q) as [[| c perm |]|] eqn:Hl; try discriminate.
  - destruct (Z.land perm os.mode_0200 =? 0)%Z; [discriminate|].
    intros H. injection H as <-. exists q, perm. eauto.
  - destruct (os.writableDir f (filepath.Dir q)); [|discriminate].
    intros H. injection H as <-. eexists q, _. eauto.
Qed.

(** A regular file put where a resolution ends. *)
Lemma Stat_put (f : gmap string Node) (p q c : string) (perm : Z) :
  os.resolve os.maxLinks f p = Some q ->
  os.resolve os.maxLinks (<[q := File c perm]> f) p = Some q
  /\ os.Stat (<[q := File c perm]> f) p = os.IsNode (File c perm).
Proof.
  intros Hq.
  assert (Hr : os.resolve os.maxLinks (<[q := File c perm]> f) p = Some q).
  { rewrite resolve_insert; [exact Hq | | intros t; discriminate].
    apply (resolve_end _ _ _ _ Hq). }
  split; [exact Hr|]. unfold os.Stat. rewrite Hr. unfold os.FS.
  rewrite lookup_insert_eq. reflexivity.
Qed.

Lemma write_put (f : gmap string Node) (p q c c' : string) (perm : Z) :
  os.resolve os.maxLinks f p = Some q ->
  os.write (<[q := File c perm]> f) p c' = <[q := File c' perm]> f.
Proof.
  intros Hq. destruct (Stat_put f p q c perm Hq) as [Hr _].
  unfold os.write. rewrite Hr. unfold os.FS. rewrite lookup_insert_eq.
  apply insert_insert_eq.
Qed.

Lemma Chmod_put (f : gmap string Node) (p q c : string) (perm mode : Z) :
  os.resolve os.maxLinks f p = Some q ->
  os.Chmod (<[q := File c perm]> f) p mode = Some (<[q := File c mode]> f).
Proof.
  intros Hq. destruct (Stat_put f p q c perm Hq) as [Hr _].
  unfold os.Chmod. rewrite Hr. unfold os.FS. rewrite lookup_insert_eq.
  rewrite insert_insert_eq. reflexivity.
Qed.

Lemma copyFile_ok (env : Env) (src dst : string) (w w' : World) :
  copyFile env src dst w = (Ok tt, w') ->
  exists q c perm,
    os.resolve os.maxLinks (fs w) dst = Some q
    /\ w' = set_fs w (<[q := File c perm]> (fs w))
    /\ os.Stat (fs w') src = os.IsNode (File c perm)
    /\ (os.resolve os.maxLinks (fs w) src <> Some q ->
        os.Stat (fs w) src = os.IsNode (File c perm))
    /\ (os.resolve os.maxLinks (fs w) src = Some q -> c = "").
Proof.
  intros H. unfold copyFile, os_Stat, gets in H. unfold bind at 1 in H.
  destruct (os.Stat (fs w) src) as [n0| |] eqn:Hs0; try discriminate.
  unfold bind at 1 in H. unfold os_Create, fsdo in H.
  destruct (os.Create (umask env) (fs w) dst) as [f1|] eqn:Hc; [|discriminate].
  destruct (Create_spec _ _ _ _ Hc) as (q & permq & Hq & -> & Hold).
  unfold bind at 1 in H. cbn [fs set_fs] in H.
  destruct (os.Stat (<[q := File "" permq]> (fs w)) src) as [[|c perm|]| |] eqn:Hs1;
    try discriminate.
  unfold bind, modify, os_Chmod, fsdo in H. cbn [fs set_fs] in H.
  rewrite (write_put _ _ _ _ _ _ Hq), (Chmod_put _ _ _ _ _ _ Hq) in H.
  inversion H; subst w'; clear H.
  assert (Hnolink : forall t, fs w !! q <> Some (Symlink t))
    by apply (resolve_end _ _ _ _ Hq).
  assert (Hres : forall c1 p1, os.resolve os.maxLinks (<[q := File c1 p1]> (fs w)) src
                               = os.resolve os.maxLinks (fs w) src).
  { intros c1 p1. apply resolve_insert; [exact Hnolink | intros t; discriminate]. }
  exists q, c, perm. split; [exact Hq|]. split; [destruct w; reflexivity|].
  unfold os.Stat in Hs1. rewrite Hres in Hs1.
  destruct (os.resolve os.maxLinks (fs w) src) as [qs|] eqn:Hqs; [|discriminate].
  cbn [fs set_fs]. unfold os.Stat. rewrite Hres; try rewrite Hqs.
  unfold os.FS in *.
  destruct (decide (q = qs)) as [<-|Hne].
  - rewrite lookup_insert_eq in Hs1. inversion Hs1; subst.
    rewrite lookup_insert_eq. repeat split; congruence.
  - rewrite lookup_insert_ne in Hs1 by exact Hne.
    rewrite lookup_insert_ne by exact Hne.
    destruct (fs w !! qs) as [n|] eqn:Hl; [|discriminate].
    inversion Hs1; subst. unfold os.Stat in Hs0. rewrite Hqs in Hs0.
    unfold os.FS in *. rewrite Hl in Hs0.
    repeat split; congruence.
Qed.

(** [copyFile] without error: the destination is a regular file with the
    content and the mode that the source has afterwards.  When the two
    paths lead to different files the source is as before, and the
    destination is its copy; when they lead to the same file, that file is
    left empty, since it is emptied before it is read. *)
Theorem copyFile_copies (env : Env) (src dst : string) (w w' : World) :
  copyFile env src dst w = (Ok tt, w') ->
  exists c perm,
    os.Stat (fs w') dst = os.IsNode (File c perm)
    /\ os.Stat (fs w') src = os.IsNode (File c perm)
    /\ (os.resolve os.maxLinks (fs w) src <> os.resolve os.maxLinks (fs w) dst ->
        os.Stat (fs w) src = os.IsNode (File c perm))
    /\ (os.resolve os.maxLinks (fs w) src = os.resolve os.maxLinks (fs w) dst ->
        c = "").
Proof.
  intros H.
  destruct (copyFile_ok env src dst w w' H) as (q & c & perm & Hq & -> & Hsrc & Hne & Heq).
  exists c, perm. rewrite Hq. repeat split; auto.
  cbn [fs set_fs]. apply (Stat_put _ _ _ _ _ Hq).
Qed.

(** The example: the program of v3.0.0 copied into [~/bin] under another
    name, and copied onto itself through the link. *)
Lemma copyFile_witness :
  (exists w', copyFile Example.env "/home/u/.ddnswitch/v3.0.0/ddn"
                "/home/u/bin/ddn3" Example.active = (Ok tt, w')
              /\ os.Stat (fs w') "/home/u/bin/ddn3"
                 = os.IsNode (File "ddn v3.0.0" os.mode_0755))
  /\ (exists w' perm, copyFile Example.env "/home/u/.ddnswitch/v3.0.0/ddn"
                        "/home/u/bin/ddn" Example.active = (Ok tt, w')
                      /\ os.Stat (fs w') "/home/u/.ddnswitch/v3.0.0/ddn"
                         = os.IsNode (File "" perm)).
Proof.
  split.
  - destruct (copyFile Example.env "/home/u/.ddnswitch/v3.0.0/ddn"
                "/home/u/bin/ddn3" Example.active) as [r w'] eqn:Hrun.
    assert (Hr : r = Ok tt).
    { apply (f_equal fst) in Hrun. vm_compute in Hrun. congruence. }
    subst r. exists w'. split; [reflexivity|].
    destruct (copyFile_copies _ _ _ _ _ Hrun) as (c & perm & Hdst & _ & Hne & _).
    assert (Hsrc : os.Stat (fs Example.active) "/home/u/.ddnswitch/v3.0.0/ddn"
                   = os.IsNode (File c perm))
      by (apply Hne; vm_compute; discriminate).
    vm_compute in Hsrc. inversion Hsrc; subst. exact Hdst.
  - destruct (copyFile Example.env "/home/u/.ddnswitch/v3.0.0/ddn"
                "/home/u/bin/ddn" Example.active) as [r w'] eqn:Hrun.
    assert (Hr : r = Ok tt).
    { apply (f_equal fst) in Hrun. vm_compute in Hrun. congruence. }
    subst r. exists w'.
    destruct (copyFile_copies _ _ _ _ _ Hrun) as (c & perm & _ & Hsrc & _ & Heq).
    assert (Hc : c = "") by (apply Heq; vm_compute; reflexivity).
    subst c. exists perm. split; [reflexivity | exact Hsrc].
Defined.

Lemma Remove_gone (f f2 : gmap string Node) (p : string) :
  os.Remove f p = Some f2 -> f2 !! p = None.
Proof.
  unfold os.Remove. unfold os.FS in *. destruct (f !! p) as [n|]; [|discriminate].
  destruct (negb (os.writableDir f (filepath.Dir p))); [discriminate|].
  destruct n as [wr| |]; [destruct (os.hasChildren f p); [discriminate|]| |];
    intros H; injection H as <-; apply lookup_delete_eq.
Qed.

Lemma Create_unwritable (umask : Z) (f : gmap string Node) (p : string) :
  f !! p = None -> os.writableDir f (filepath.Dir p) = false ->
  os.Create umask f p = None.
Proof.
  intros Hp Hw. unfold os.Create. rewrite (resolve_absent _ f p Hp).
  unfold os.FS in *. rewrite Hp, Hw. reflexivity.
Qed.

(** The link is made where there is no entry: by [os.Symlink], or, when
    that fails, by [copyFile]. *)
Lemma link_or_copy (env : Env) (target link : string) (w w' : World) :
  fs w !! link = None ->
  (r <- try (os_Symlink env target link) ;;
   match r with
   | Err _ => copyFile env target link
   | Ok _ => ret tt
   end)%go w = (Ok tt, w') ->
  (symlinks env = true -> os.Readlink (fs w') link = Some target)
  /\ (symlinks env = false ->
      exists c perm, os.Lstat (fs w') link = Some (File c perm)
                     /\ os.Stat (fs w') target = os.IsNode (File c perm)).
Proof.
  intros Hfresh. unfold bind, try, os_Symlink, fsdo, os.Symlink_.
  destruct (symlinks env).
  - unfold os.FS in *. rewrite Hfresh.
    destruct (os.writableDir (fs w) (filepath.Dir link)) eqn:Hw.
    + intros H. inversion H; subst. split; [|discriminate].
      intros _. unfold os.Readlink. cbn [fs set_fs]. unfold os.FS.
      rewrite lookup_insert_eq. reflexivity.
    + intros H. exfalso. unfold copyFile, os_Stat, gets in H.
      unfold bind at 1 in H.
      destruct (os.Stat (fs w) target); try discriminate.
      unfold bind at 1 in H. unfold os_Create, fsdo in H.
      rewrite (Create_unwritable _ _ _ Hfresh Hw) in H. discriminate.
  - intros H. split; [discriminate|]. intros _.
    destruct (copyFile_ok env target link w w' H)
      as (q & c & perm & Hq & -> & Hsrc & _).
    rewrite (resolve_absent _ _ _ Hfresh) in Hq. injection Hq as <-.
    exists c, perm. split; [|exact Hsrc].
    unfold os.Lstat. cbn [fs set_fs]. unfold os.FS. apply lookup_insert_eq.
Qed.

Lemma createSymlink_ok (env : Env) (getSymlinkPath : M string)
      (target link : string) (w w1 w' : World) :
  getSymlinkPath w = (Ok link, w1) ->
  createSymlink env getSymlinkPath target w = (Ok tt, w') ->
  (symlinks env = true -> os.Readlink (fs w') link = Some target)
  /\ (symlinks env = false ->
      exists c perm, os.Lstat (fs w') link = Some (File c perm)
                     /\ os.Stat (fs w') target = os.IsNode (File c perm)).
Proof.
  intros Hlink H. unfold createSymlink in H.
  apply bind_ok in H as (link' & w1' & H1 & H).
  rewrite Hlink in H1. inversion H1; subst link' w1'; clear H1.
  apply bind_ok in H as (old & w2 & H2 & H).
  unfold gets in H2. inversion H2; subst old w2; clear H2.
  apply bind_ok in H as (r & w3 & H3 & H).
  destruct r as [[]|e]; [|discriminate H].
  apply (link_or_copy env target link w3 w'); [|exact H].
  unfold os.Lstat in H3. unfold os.FS in *.
  destruct (fs w1 !! link) as [old|] eqn:Hold.
  - apply try_ok in H3. unfold os_Remove, fsdo in H3.
    destruct (os.Remove (fs w1) link) as [f2|] eqn:Hrm; inversion H3; subst.
    cbn [fs set_fs]. apply (Remove_gone _ _ _ Hrm).
  - inversion H3; subst. exact Hold.
Qed.

(** [createSymlink] without error.  Where links can be made, the link
    path is then a link to the target, whether the target exists or not.
    Where they cannot, the link path is a regular file, a copy of the
    target with its mode.  What was at the link path before is removed
    first. *)
Theorem createSymlink_links_or_copies (env : Env) (getSymlinkPath : M string)
        (target link : string) (w w1 w' : World) :
  getSymlinkPath w = (Ok link, w1) ->
  createSymlink env getSymlinkPath target w = (Ok tt, w') ->
  (symlinks env = true -> os.Readlink (fs w') link = Some target)
  /\ (symlinks env = false ->
      exists c perm, os.Lstat (fs w') link = Some (File c perm)
                     /\ os.Stat (fs w') target = os.IsNode (File c perm)).
Proof.
  apply createSymlink_ok.
Qed.

(** The example, on a system without links: the link of v3.0.0 is replaced
    by a copy of the program. *)
Lemma createSymlink_witness :
  let env := Example.env_with Example.server "/usr/bin:/home/u/bin" false in
  exists w', createSymlink env (getSymlinkPath0 env)
               "/home/u/.ddnswitch/v3.0.0/ddn" Example.active = (Ok tt, w')
             /\ exists c perm,
                 os.Lstat (fs w') "/home/u/bin/ddn" = Some (File c perm)
                 /\ os.Stat (fs w') "/home/u/.ddnswitch/v3.0.0/ddn"
                    = os.IsNode (File c perm).
Proof.
  intros env.
  destruct (createSymlink env (getSymlinkPath0 env)
              "/home/u/.ddnswitch/v3.0.0/ddn" Example.active) as [r w'] eqn:Hrun.
  assert (Hr : r = Ok tt).
  { apply (f_equal fst) in Hrun. vm_compute in Hrun. congruence. }
  subst r. exists w'. split; [reflexivity|].
  assert (Hlink : getSymlinkPath0 env Example.active
                  = (Ok "/home/u/bin/ddn", Example.active))
    by (vm_compute; reflexivity).
  exact (proj2 (createSymlink_links_or_copies env (getSymlinkPath0 env)
                  "/home/u/.ddnswitch/v3.0.0/ddn" "/home/u/bin/ddn"
                  Example.active Example.active w' Hlink Hrun) eq_refl).
Defined.

(** ** Facts on the download *)

(** The steps of [downloadBinaryImpl], one after the other. *)
Lemma download_run (env : Env) (url dest : string) (w : World) :
  downloadBinaryImpl env url dest w
  = let w1 := sent url (snd (http_get env (clock w) url))
                (print ("Downloading from: " ++ url) w) in
    match fst (http_get env (clock w) url) with
    | TransportError =>
        (Err (Wrap "HTTP request failed" (SysError "Get" url)), w1)
    | Reply status body =>
        if (status =? 200)%Z
        then match os.Create (umask env) (fs w) dest with
             | None => (Err (Wrap "failed to create output file"
                               (SysError "open" dest)), w1)
             | Some f1 =>
                 let w2 := set_fs w1 (os.write f1 dest body) in
                 if isWindows env
                 then (Ok tt, print "Download completed successfully!" w2)
                 else match os.Chmod (os.write f1 dest body) dest os.mode_0755 with
                      | Some f3 =>
                          (Ok tt, print "Download completed successfully!"
                                    (set_fs w2 f3))
                      | None =>
                          (Err (Wrap "failed to set executable permissions"
                                  (SysError "chmod" dest)), w2)
                      end
             end
        else (Err (Errorf ("failed to download: HTTP status " ++ itoa status)), w1)
    end.
Proof.
  unfold downloadBinaryImpl, bind, modify, try, os_Create, os_Chmod, fsdo,
    fail, ret.
  cbn [clock print fs sent].
  destruct (http_get env (clock w) url) as [[|status body] elapsed];
    cbn [fst snd]; [reflexivity|].
  destruct (status =? 200)%Z; cbn [negb]; [|reflexivity].
  cbn [clock print fs sent set_fs].
  destruct (os.Create (umask env) (fs w) dest) as [f1|]; [|reflexivity].
  cbn [clock print fs sent set_fs].
  destruct (isWindows env); [reflexivity|].
  cbn [clock print fs sent set_fs].
  destruct (os.Chmod (os.write f1 dest body) dest os.mode_0755); reflexivity.
Qed.

(** [downloadBinaryImpl].  It sends one request, for the URL, whatever
    the outcome.  A request that fails, or an answer with a status other
    than 200, is an error that leaves the files as they were: the
    destination is not created.  After a call without error the answer had
    status 200, and the destination is a regular file that holds the body;
    off Windows its mode is 0755. *)
Theorem download_outcomes (env : Env) (url dest : string) (w : World) :
  let run := downloadBinaryImpl env url dest w in
  requests (snd run) = url :: requests w
  /\ (fst (http_get env (clock w) url) = TransportError ->
      fst run = Err (Wrap "HTTP request failed" (SysError "Get" url))
      /\ fs (snd run) = fs w)
  /\ (forall status body,
         fst (http_get env (clock w) url) = Reply status body ->
         status <> 200%Z ->
         fst run = Err (Errorf ("failed to download: HTTP status " ++ itoa status))
         /\ fs (snd run) = fs w)
  /\ (fst run = Ok tt ->
      exists body perm,
        fst (http_get env (clock w) url) = Reply 200 body
        /\ os.Stat (fs (snd run)) dest = os.IsNode (File body perm)
        /\ (isWindows env = false -> perm = os.mode_0755)).
Proof.
  intros run. subst run. rewrite download_run. cbv zeta.
  destruct (http_get env (clock w) url) as [resp elapsed]. cbn [fst snd].
  destruct resp as [|status body].
  { cbn [fst snd requests fs sent print set_fs].
    split; [reflexivity|]. split; [intros _; split; reflexivity|].
    split; [intros s b Hr; discriminate Hr | intros Hok; discriminate Hok]. }
  destruct (status =? 200)%Z eqn:Hstatus.
  2:{ cbn [fst snd requests fs sent print set_fs].
      split; [reflexivity|]. split; [intros Ht; discriminate Ht|].
      split; [|intros Hok; discriminate Hok].
      intros s b Hr _. inversion Hr; subst. split; reflexivity. }
  apply Z.eqb_eq in Hstatus. subst status.
  assert (Hnot : forall s b (P : Prop),
             Reply 200 body = Reply s b -> s <> 200%Z -> P).
  { intros s b P Hr Hne. inversion Hr; subst. contradiction Hne. reflexivity. }
  destruct (os.Create (umask env) (fs w) dest) as [f1|] eqn:Hc.
  2:{ cbn [fst snd requests fs sent print set_fs].
      split; [reflexivity|]. split; [intros Ht; discriminate Ht|].
      split; [intros s b; apply Hnot | intros Hok; discriminate Hok]. }
  destruct (Create_spec _ _ _ _ Hc) as (q & permq & Hq & -> & _).
  rewrite (write_put _ _ _ _ _ _ Hq).
  destruct (isWindows env) eqn:Hwin.
  - cbn [fst snd requests fs sent print set_fs].
    split; [reflexivity|]. split; [intros Ht; discriminate Ht|].
    split; [intros s b; apply Hnot|].
    intros _. exists body, permq. split; [reflexivity|].
    split; [apply (Stat_put _ _ _ _ _ Hq) | discriminate].
  - rewrite (Chmod_put _ _ _ _ _ _ Hq).
    cbn [fst snd requests fs sent print set_fs].
    split; [reflexivity|]. split; [intros Ht; discriminate Ht|].
    split; [intros s b; apply Hnot|].
    intros _. exists body, os.mode_0755. split; [reflexivity|].
    split; [apply (Stat_put _ _ _ _ _ Hq) | reflexivity].
Qed.

(** The example: the server has no file at the address, and answers 404. *)
Lemma download_witness :
  fst (downloadBinaryImpl Example.env "https://example.org/ddn"
         "/home/u/bin/ddn" Example.start)
  = Err (Errorf ("failed to download: HTTP status " ++ itoa 404))
  /\ fs (snd (downloadBinaryImpl Example.env "https://example.org/ddn"
                "/home/u/bin/ddn" Example.start))
     = fs Example.start.
Proof.
  apply (proj1 (proj2 (proj2 (download_outcomes Example.env
                                "https://example.org/ddn" "/home/u/bin/ddn"
                                Example.start))) 404%Z "").
  - vm_compute. reflexivity.
  - discriminate.
Defined.

(** ** Facts on the uninstaller and the install directory *)

(** What [os.RemoveAll] leaves: the entries that are not the path and not
    below it. *)
Lemma RemoveAll_spec (f f' : gmap string Node) (p : string) :
  f !! p <> None -> os.RemoveAll f p = Some f' ->
  forall k, f' !! k = if String.eqb k p || os.under p k then None else f !! k.
Proof.
  intros Hp. unfold os.RemoveAll. unfold os.FS in *.
  destruct (f !! p) as [n|]; [|contradiction Hp; reflexivity].
  destruct (os.writableDir f (filepath.Dir p) && negb (os.lockedBelow f p));
    [|discriminate].
  intros H k. injection H as <-.
  destruct (String.eqb k p || os.under p k) eqn:E.
  - apply map_lookup_filter_None. right. intros x _. cbn [fst].
    rewrite E. discriminate.
  - destruct (f !! k) as [x|] eqn:Hk.
    + apply map_lookup_filter_Some. split; [exact Hk|]. cbn [fst].
      rewrite E. reflexivity.
    + apply map_lookup_filter_None. left. exact Hk.
Qed.

Lemma Stat_present (f : gmap string Node) (p : string) :
  os.Stat f p <> os.ENOENT -> f !! p <> None.
Proof.
  intros Hs Hp. apply Hs. unfold os.Stat.
  rewrite (resolve_absent _ f p Hp). unfold os.FS in *. rewrite Hp. reflexivity.
Qed.

Lemma uninstallVersion_ok (getInstallDir : M string)
      (version installPath : string) (w w' : World) :
  getInstallDir w = (Ok installPath, w) ->
  uninstallVersion getInstallDir version w = (Ok tt, w') ->
  let versionDir := filepath.Join [installPath; version] in
  (forall p, fs w' !! p
             = if String.eqb p versionDir || os.under versionDir p
               then None else fs w !! p)
  /\ stdout w' = ("Successfully uninstalled DDN CLI version " ++ version)
                   :: stdout w
  /\ requests w' = requests w.
Proof.
  intros Hdir H versionDir. unfold uninstallVersion in H.
  rewrite (bind_step _ _ _ _ _ Hdir) in H. fold versionDir in H.
  unfold os_Stat, gets in H. unfold bind at 1 in H.
  assert (Hpresent : os.Stat (fs w) versionDir <> os.ENOENT).
  { intros Hs. rewrite Hs in H. discriminate H. }
  assert (Hrun : (r <- try (os_RemoveAll versionDir) ;;
                  match r with
                  | Err e => fail (Wrap ("failed to uninstall version " ++ version) e)
                  | Ok _ => modify (print ("Successfully uninstalled DDN CLI version "
                                           ++ version))
                  end)%go w = (Ok tt, w')).
  { destruct (os.Stat (fs w) versionDir); [exact H | contradiction Hpresent; reflexivity
                                           | exact H]. }
  clear H. unfold bind, try, os_RemoveAll, fsdo, modify in Hrun.
  destruct (os.RemoveAll (fs w) versionDir) as [f'|] eqn:Hrm; [|discriminate].
  inversion Hrun; subst w'; clear Hrun. cbn [fs stdout requests print set_fs].
  split; [|split; reflexivity].
  apply (RemoveAll_spec _ _ _ (Stat_present _ _ Hpresent) Hrm).
Qed.

(** [uninstallVersion] without error: the directory of the version and
    all below it are gone, every other entry is as before, one line is
    printed and no request is sent. *)
Theorem uninstall_removes_exactly (getInstallDir : M string)
        (version installPath : string) (w w' : World) :
  getInstallDir w = (Ok installPath, w) ->
  uninstallVersion getInstallDir version w = (Ok tt, w') ->
  let versionDir := filepath.Join [installPath; version] in
  (forall p, fs w' !! p
             = if String.eqb p versionDir || os.under versionDir p
               then None else fs w !! p)
  /\ stdout w' = ("Successfully uninstalled DDN CLI version " ++ version)
                   :: stdout w
  /\ requests w' = requests w.
Proof.
  apply uninstallVersion_ok.
Qed.

(** The example: v3.0.0 is uninstalled; its program is gone and the link
    in [~/bin], which is not below the directory, stays and leads
    nowhere. *)
Lemma uninstall_witness :
  exists w', uninstallVersion0 Example.env "v3.0.0" Example.active = (Ok tt, w')
             /\ fs w' !! "/home/u/.ddnswitch/v3.0.0/ddn" = None
             /\ fs w' !! "/home/u/bin/ddn"
                = Some (Symlink "/home/u/.ddnswitch/v3.0.0/ddn").
Proof.
  destruct (uninstallVersion0 Example.env "v3.0.0" Example.active)
    as [r w'] eqn:Hrun.
  assert (Hr : r = Ok tt).
  { apply (f_equal fst) in Hrun. vm_compute in Hrun. congruence. }
  subst r. exists w'. split; [reflexivity|].
  assert (Hdir : getInstallDir0 Example.env Example.active
                 = (Ok "/home/u/.ddnswitch", Example.active)) by reflexivity.
  destruct (uninstall_removes_exactly (getInstallDir0 Example.env) "v3.0.0"
              "/home/u/.ddnswitch" Example.active w' Hdir Hrun) as (Hfs & _).
  split; rewrite Hfs; vm_compute; reflexivity.
Defined.

(** The version is not checked.  For the empty version the directory
    that [filepath.Join] gives is the install directory itself:
    [uninstallVersion] then removes it with all the versions in it. *)
Theorem uninstall_empty_version_removes_all (getInstallDir : M string)
        (installPath : string) (w w' : World) :
  getInstallDir w = (Ok installPath, w) ->
  installPath <> "" ->
  uninstallVersion getInstallDir "" w = (Ok tt, w') ->
  forall p, p = filepath.Clean installPath
            \/ os.under (filepath.Clean installPath) p = true ->
            fs w' !! p = None.
Proof.
  intros Hdir Hne H p Hp.
  destruct (uninstallVersion_ok getInstallDir "" installPath w w' Hdir H)
    as (Hfs & _).
  assert (Hjoin : filepath.Join [installPath; ""] = filepath.Clean installPath).
  { unfold filepath.Join. simpl. apply String.eqb_neq in Hne. rewrite Hne. simpl.
    destruct installPath; [discriminate|reflexivity]. }
  rewrite Hfs, Hjoin.
  destruct Hp as [-> | Hp].
  - rewrite String.eqb_refl. reflexivity.
  - rewrite Hp, orb_true_r. reflexivity.
Qed.

(** The example: with the empty version the program of v3.0.0 goes too. *)
Lemma uninstall_empty_version_witness :
  exists w', uninstallVersion0 Example.env "" Example.active = (Ok tt, w')
             /\ fs w' !! "/home/u/.ddnswitch/v3.0.0/ddn" = None.
Proof.
  destruct (uninstallVersion0 Example.env "" Example.active)
    as [r w'] eqn:Hrun.
  assert (Hr : r = Ok tt).
  { apply (f_equal fst) in Hrun. vm_compute in Hrun. congruence. }
  subst r. exists w'. split; [reflexivity|].
  assert (Hdir : getInstallDir0 Example.env Example.active
                 = (Ok "/home/u/.ddnswitch", Example.active)) by reflexivity.
  apply (uninstall_empty_version_removes_all (getInstallDir0 Example.env)
           "/home/u/.ddnswitch" Example.active w' Hdir ltac:(discriminate) Hrun).
  right. vm_compute. reflexivity.
Defined.

(** [ensureInstallDir] makes the install directory.  After a call without
    error the path is a directory; when it is one already nothing changes;
    a regular file at the path is an error. *)
Theorem ensureInstallDir_makes_directory (getInstallDir : M string)
        (installPath : string) (w w1 : World) :
  getInstallDir w = (Ok installPath, w1) ->
  (forall w', ensureInstallDir getInstallDir w = (Ok tt, w') ->
              exists wr, os.Stat (fs w') installPath = os.IsNode (Dir wr))
  /\ (forall wr, os.Stat (fs w1) installPath = os.IsNode (Dir wr) ->
                 ensureInstallDir getInstallDir w = (Ok tt, w1))
  /\ (forall c perm, os.Stat (fs w1) installPath = os.IsNode (File c perm) ->
                     ensureInstallDir getInstallDir w
                     = (Err (SysError "mkdir" installPath), w1)).
Proof.
  intros Hdir. unfold ensureInstallDir. rewrite (bind_step _ _ _ _ _ Hdir).
  unfold os_MkdirAll, fsdo. split; [|split].
  - intros w' H.
    destruct (os.MkdirAll (fs w1) installPath) as [f'|] eqn:Hmk; [|discriminate].
    inversion H; subst. cbn [fs set_fs]. apply (MkdirAllFrom_dir _ _ _ _ Hmk).
  - intros wr Hs. rewrite (MkdirAll_existing _ _ _ Hs), set_fs_same. reflexivity.
  - intros c perm Hs. unfold os.MkdirAll.
    destruct (String.length installPath); cbn [os.MkdirAllFrom]; rewrite Hs;
      reflexivity.
Qed.

(** The example: at the start there is no install directory, and the call
    makes it. *)
Lemma ensureInstallDir_witness :
  exists w' wr,
    ensureInstallDir (getInstallDir0 Example.env) Example.start = (Ok tt, w')
    /\ os.Stat (fs w') "/home/u/.ddnswitch" = os.IsNode (Dir wr).
Proof.
  destruct (ensureInstallDir (getInstallDir0 Example.env) Example.start)
    as [r w'] eqn:Hrun.
  assert (Hr : r = Ok tt).
  { apply (f_equal fst) in Hrun. vm_compute in Hrun. congruence. }
  subst r.
  assert (Hdir : getInstallDir0 Example.env Example.start
                 = (Ok "/home/u/.ddnswitch", Example.start)) by reflexivity.
  destruct (proj1 (ensureInstallDir_makes_directory (getInstallDir0 Example.env)
                     "/home/u/.ddnswitch" Example.start Example.start Hdir)
              w' Hrun) as [wr Hwr].
  exists w', wr. split; [reflexivity | exact Hwr].
Defined.

(** Without a home directory nothing is done: installing, switching,
    uninstalling and the search for the link path all end with the error of
    [os.UserHomeDir], and the world is as it was; no request is sent, no
    file is touched. *)
Theorem no_home_no_action (env : Env) (version : string) (w : World) :
  HOME env = None ->
  let e := SysError "UserHomeDir" "" in
  installVersion0 env version w = (Err e, w)
  /\ switchToVersion0 env version w = (Err e, w)
  /\ uninstallVersion0 env version w = (Err e, w)
  /\ getSymlinkPath0 env w = (Err e, w).
Proof.
  intros Hhome e.
  assert (Hdir : getInstallDir0 env w = (Err e, w)).
  { unfold getInstallDir0, getHomeDir. rewrite Hhome. reflexivity. }
  assert (Hens : ensureInstallDir (getInstallDir0 env) w = (Err e, w)).
  { unfold ensureInstallDir. apply bind_stop. exact Hdir. }
  repeat split.
  - unfold installVersion0, installVersionImpl. apply bind_stop. exact Hens.
  - unfold switchToVersion0, switchToVersion. apply bind_stop. exact Hens.
  - unfold uninstallVersion0, uninstallVersion. apply bind_stop. exact Hdir.
  - unfold getSymlinkPath0, getHomeDir. rewrite Hhome. reflexivity.
Qed.

Lemma no_home_witness :
  switchToVersion0 Example.homeless "v3.0.0" Example.start
  = (Err (SysError "UserHomeDir" ""), Example.start).
Proof.
  exact (proj1 (proj2 (no_home_no_action Example.homeless "v3.0.0"
                         Example.start eq_refl))).
Defined.

(** ** Facts on the listing commands *)

(** [isCurrentVersion] never fails and changes nothing. *)
Lemma isCurrentVersion_run (env : Env) (version : string) (w : World) :
  isCurrentVersion env version w
  = (Ok (match fst (exec_ddn env (run_dash_version env) w) with
         | Ok (Some output) =>
             strings.Contains (strings.TrimSpace output) version
         | _ => false
         end), w).
Proof.
  unfold isCurrentVersion, exec_ddn, gets, bind. cbn [fst].
  destruct (_ ≫= _); reflexivity.
Qed.



Lemma Split_nonempty (s : string) (sep : ascii) : strings.Split s sep <> [].
Proof.
  induction s as [|c s IH]; simpl; [discriminate|].
  destruct (Ascii.eqb c sep); [discriminate|].
  destruct (strings.Split s sep); discriminate.
Qed.

(** The first field of a string that continues with the separator, or
    ends. *)
Lemma Split_first (a rest : string) (sep : ascii) :
  strings.Contains a (String sep "") = false ->
  rest = "" \/ (exists r, rest = String sep r) ->
  List.hd "" (strings.Split (a ++ rest) sep) = a.
Proof.
  intros Hno Hrest. induction a as [|c a IH].
  - app_step. destruct Hrest as [-> | [r ->]]; simpl; [reflexivity|].
    rewrite Ascii.eqb_refl. reflexivity.
  - cbn [strings.Contains] in Hno. apply orb_false_iff in Hno as [Hc Ha].
    app_step. cbn [strings.Split].
    assert (Hne : Ascii.eqb c sep = false).
    { simpl in Hc. destruct (Ascii.ascii_dec sep c) as [->|Hne].
      - destruct a; discriminate Hc.
      - apply Ascii.eqb_neq. congruence. }
    rewrite Hne. specialize (IH Ha).
    pose proof (Split_nonempty (a ++ rest) sep) as Hnil.
    destruct (strings.Split (a ++ rest) sep) as [|f fs]; [contradiction|].
    simpl in *. rewrite IH. reflexivity.
Qed.

Lemma selectedVersion_label (release : Release) (isCurrent : bool) :
  (strings.Contains (TagName release) " " = false ->
   selectedVersion (optionLabel release isCurrent) = TagName release)
  /\ (forall a b, TagName release = a ++ " " ++ b ->
                  strings.Contains a " " = false ->
                  selectedVersion (optionLabel release isCurrent) = a).
Proof.
  unfold selectedVersion, optionLabel. cbv zeta. split.
  - intros Hno. apply Split_first; [exact Hno|].
    destruct (PreRelease release), isCurrent; app_step; eauto.
  - intros a b -> Hno. rewrite !append_assoc.
    apply Split_first; [exact Hno|]. right. app_step. eauto.
Qed.

(** From the line of the menu back to the tag.  For a tag without a space
    the version taken from the chosen line is the tag, whatever marks
    follow it; for a tag with a space it is only the part before the first
    space. *)
Theorem menu_line_gives_back_tag (release : Release) (isCurrent : bool) :
  (strings.Contains (TagName release) " " = false ->
   selectedVersion (optionLabel release isCurrent) = TagName release)
  /\ (forall a b, TagName release = a ++ " " ++ b ->
                  strings.Contains a " " = false ->
                  selectedVersion (optionLabel release isCurrent) = a).
Proof.
  exact (selectedVersion_label release isCurrent).
Qed.

Lemma menu_line_witness :
  selectedVersion (optionLabel (Example.release "v2.0.0" true false) true)
  = "v2.0.0".
Proof.
  apply (proj1 (menu_line_gives_back_tag (Example.release "v2.0.0" true false)
                  true)).
  vm_compute. reflexivity.
Defined.

(** The options are prepared without error and without a change. *)
Lemma optionsOf_run (env : Env) (releases : list Release) (w : World) :
  exists options,
    optionsOf env releases w = (Ok options, w)
    /\ List.length options = List.length releases
    /\ forall option, In option options ->
                      exists release isCurrent,
                        In release releases
                        /\ option = optionLabel release isCurrent.
Proof.
  induction releases as [|release rest (options & Hrun & Hlen & Hin)];
    cbn [optionsOf].
  - exists []. repeat split. intros option [].
  - eexists. split; [|split].
    + unfold bind. rewrite isCurrentVersion_run, Hrun. reflexivity.
    + simpl. rewrite Hlen. reflexivity.
    + intros option [<- | Hopt].
      * eexists release, _. split; [left; reflexivity | reflexivity].
      * destruct (Hin option Hopt) as (r & c & Hr & ->).
        exists r, c. split; [right; exact Hr | reflexivity].
Qed.

(** [listAndSelectVersion] after the catalog is fetched.  With no release
    the error is that none was found, and nothing is asked.  Otherwise the
    user is asked once, with one line for each release, in the order of
    the list; and when the line chosen is that of a release whose tag has
    no space, [switchToVersion] runs for that tag. *)
Theorem menu_switches_to_selected {SV : Semver} {SS : SortSlice} (env : Env)
        (getInstallDir : M string) (installVersion : string -> M unit)
        (getSymlinkPath : M string)
        (askOne : string -> list string -> M string)
        (releases : list Release) (w w1 : World) :
  fetchAvailableVersions env (print "Fetching available DDN CLI versions..." w)
  = (Ok releases, w1) ->
  let run := listAndSelectVersion env getInstallDir installVersion
               getSymlinkPath askOne w in
  (releases = [] -> run = (Err (Errorf "no DDN CLI releases found"), w1))
  /\ (releases <> [] ->
      exists options,
        optionsOf env releases w1 = (Ok options, w1)
        /\ List.length options = List.length releases
        /\ forall release isCurrent w2,
            askOne "Select DDN CLI version to install:" options w1
            = (Ok (optionLabel release isCurrent), w2) ->
            strings.Contains (TagName release) " " = false ->
            run = switchToVersion env getInstallDir installVersion
                    getSymlinkPath (TagName release) w2).
Proof.
  intros Hfetch run.
  assert (Hstart : run
                   = match releases with
                     | [] => fail (Errorf "no DDN CLI releases found")
                     | _ =>
                         (options <- optionsOf env releases ;;
                          selectedOption <-
                            askOne "Select DDN CLI version to install:" options ;;
                          switchToVersion env getInstallDir installVersion
                            getSymlinkPath (selectedVersion selectedOption))%go
                     end w1).
  { subst run. unfold listAndSelectVersion.
    unfold bind at 1. unfold modify at 1.
    rewrite (bind_step _ _ _ _ _ Hfetch). reflexivity. }
  rewrite Hstart. clear Hstart run. split.
  - intros ->. reflexivity.
  - intros Hne.
    destruct (optionsOf_run env releases w1) as (options & Hrun & Hlen & _).
    exists options. split; [exact Hrun|]. split; [exact Hlen|].
    intros release isCurrent w2 Hask Hno.
    destruct releases as [|r rs]; [contradiction Hne; reflexivity|].
    rewrite (bind_step _ _ _ _ _ Hrun), (bind_step _ _ _ _ _ Hask).
    rewrite (proj1 (selectedVersion_label release isCurrent) Hno).
    reflexivity.
Qed.

(** The example: the cache holds v3.0.0 and v1.5.0, v3.0.0 is active, the
    user takes the first line, and is told that v3.0.0 is in use. *)
Lemma menu_witness :
  let w := set_fs Example.warm (fs Example.active) in
  fst (listAndSelectVersion Example.env (getInstallDir0 Example.env)
         (installVersion0 Example.env) (getSymlinkPath0 Example.env)
         Example.firstOption w)
  = fst (switchToVersion Example.env (getInstallDir0 Example.env)
           (installVersion0 Example.env) (getSymlinkPath0 Example.env)
           "v3.0.0"
           (print "Fetching available DDN CLI versions..." w)).
Proof.
  intros w.
  assert (Hfetch : fetchAvailableVersions Example.env
                     (print "Fetching available DDN CLI versions..." w)
                   = (Ok [Example.release "v3.0.0" false false;
                          Example.release "v1.5.0" false false],
                      print "Fetching available DDN CLI versions..." w))
    by (vm_compute; reflexivity).
  destruct (proj2 (menu_switches_to_selected Example.env
                     (getInstallDir0 Example.env) (installVersion0 Example.env)
                     (getSymlinkPath0 Example.env) Example.firstOption
                     _ w _ Hfetch) ltac:(discriminate))
    as (options & Hopts & _ & Hsel).
  assert (Hoptions : options = ["v3.0.0 (current)"; "v1.5.0"]).
  { apply (f_equal fst) in Hopts. vm_compute in Hopts. congruence. }
  subst options.
  rewrite (Hsel (Example.release "v3.0.0" false false) true
             (print "Fetching available DDN CLI versions..." w));
    reflexivity.
Defined.

(** ** More on the installer *)





(** ** The activator as a whole *)

Lemma verifyActive_fs (env : Env) (version : string) (w : World) :
  fst (verifyActive env version w) = Ok tt
  /\ fs (snd (verifyActive env version w)) = fs w.
Proof.
  unfold verifyActive, exec_ddn, gets, bind. cbn [fst snd].
  destruct (_ ≫= _) as [output|]; [|split; reflexivity].
  cbv zeta. destruct (negb _); split; reflexivity.
Qed.

(** [switchToVersion] without error leaves the version active.  With an
    install directory and a link path that do not change during the call,
    the link path is afterwards a link to the program of the version; or,
    where links cannot be made, a regular file that is a copy of that
    program. *)
Theorem switch_success_activates (env : Env)
        (getInstallDir : M string) (installVersion : string -> M unit)
        (getSymlinkPath : M string)
        (version installPath link : string) (w w' : World) :
  (forall w0, getInstallDir w0 = (Ok installPath, w0)) ->
  (forall w0, getSymlinkPath w0 = (Ok link, w0)) ->
  switchToVersion env getInstallDir installVersion getSymlinkPath version w
  = (Ok tt, w') ->
  let binPath := binPathOf env installPath version in
  os.Readlink (fs w') link = Some binPath
  \/ (symlinks env = false
      /\ exists c perm, os.Lstat (fs w') link = Some (File c perm)
                        /\ os.Stat (fs w') binPath = os.IsNode (File c perm)).
Proof.
  intros Hdir Hlink H binPath. unfold switchToVersion in H.
  apply bind_ok in H as (u & w1 & _ & H).
  rewrite (bind_step _ _ _ _ _ (Hdir w1)) in H. fold binPath in H.
  apply bind_ok in H as (u' & w2 & _ & H).
  unfold activate in H. unfold bind at 1 in H. unfold try at 1 in H.
  rewrite (Hlink w2) in H. unfold gets in H. unfold bind at 1 in H.
  destruct (os.Readlink (fs w2) link) as [t|] eqn:Hread.
  - destruct (String.eqb t binPath) eqn:Heq.
    + apply String.eqb_eq in Heq. subst t. inversion H; subst.
      left. exact Hread.
    + apply bind_ok in H as (r & w3 & Hcs & H). apply try_ok in Hcs.
      destruct r as [[]|e]; [|discriminate H].
      pose proof (verifyActive_fs env version w3) as [_ Hfs].
      rewrite H in Hfs. cbn [snd] in Hfs. rewrite Hfs.
      destruct (createSymlink_ok env getSymlinkPath binPath link w2 w2 w3
                  (Hlink w2) Hcs) as [Hyes Hno].
      destruct (symlinks env); [left; auto | right; auto].
  - apply bind_ok in H as (r & w3 & Hcs & H). apply try_ok in Hcs.
    destruct r as [[]|e]; [|discriminate H].
    pose proof (verifyActive_fs env version w3) as [_ Hfs].
    rewrite H in Hfs. cbn [snd] in Hfs. rewrite Hfs.
    destruct (createSymlink_ok env getSymlinkPath binPath link w2 w2 w3
                (Hlink w2) Hcs) as [Hyes Hno].
    destruct (symlinks env); [left; auto | right; auto].
Qed.

(** The example: from the start, with the program's own installer and
    resolver, v3.0.1 is downloaded and the link in [~/bin] leads to it. *)
Lemma switch_success_witness :
  exists w',
    switchToVersion Example.env (getInstallDir0 Example.env)
      (installVersion0 Example.env) (getSymlinkPath0 Example.env)
      "v3.0.1" Example.start = (Ok tt, w')
    /\ os.Readlink (fs w') "/home/u/bin/ddn"
       = Some "/home/u/.ddnswitch/v3.0.1/ddn".
Proof.
  destruct (switchToVersion Example.env (getInstallDir0 Example.env)
              (installVersion0 Example.env) (getSymlinkPath0 Example.env)
              "v3.0.1" Example.start) as [r w'] eqn:Hrun.
  assert (Hr : r = Ok tt).
  { apply (f_equal fst) in Hrun. vm_compute in Hrun. congruence. }
  subst r. exists w'. split; [reflexivity|].
  assert (Hlink : forall w0, getSymlinkPath0 Example.env w0
                             = (Ok "/home/u/bin/ddn", w0))
    by (intros w0; vm_compute; reflexivity).
  destruct (switch_success_activates Example.env (getInstallDir0 Example.env)
              (installVersion0 Example.env) (getSymlinkPath0 Example.env)
              "v3.0.1" "/home/u/.ddnswitch" "/home/u/bin/ddn"
              Example.start w' (fun w0 => eq_refl) Hlink Hrun)
    as [Hyes | [Hno _]]; [exact Hyes | discriminate Hno].
Defined.

(** ** Facts on the use of the network *)

Lemma silent_ret {A : Type} (a : A) : silent (ret a).
Proof. intros w. reflexivity. Qed.

Lemma silent_fail {A : Type} (e : error) : silent (@fail A e).
Proof. intros w. reflexivity. Qed.

Lemma silent_gets {A : Type} (f : World -> A) : silent (gets f).
Proof. intros w. reflexivity. Qed.

Lemma silent_modify (f : World -> World) :
  (forall w, requests (f w) = requests w) -> silent (modify f).
Proof. intros H w. apply H. Qed.

Lemma silent_bind {A B : Type} (m : M A) (k : A -> M B) :
  silent m -> (forall a, silent (k a)) -> silent (bind m k).
Proof.
  intros Hm Hk w. unfold bind. specialize (Hm w).
  destruct (m w) as [[a|e] w1]; simpl in *; [|exact Hm].
  rewrite (Hk a w1). exact Hm.
Qed.

Lemma silent_try {A : Type} (m : M A) : silent m -> silent (try m).
Proof.
  intros Hm w. unfold try. specialize (Hm w).
  destruct (m w) as [r w1]. exact Hm.
Qed.

Lemma silent_fsdo (op : os.FS -> option os.FS) (e : error) : silent (fsdo op e).
Proof. intros w. apply fsdo_requests. Qed.

Ltac silent_step :=
  first
    [ assumption
    | apply silent_ret | apply silent_fail | apply silent_gets
    | apply silent_fsdo
    | apply silent_modify; intros ?; reflexivity
    | apply silent_try
    | apply silent_bind; [|intros ?]
    | match goal with
      | |- silent (match ?x with _ => _ end) => destruct x
      | |- silent (if ?b then _ else _) => destruct b
      end
    | progress cbv zeta ].

Ltac silent_tac := repeat silent_step.

Lemma atMostOneRequest_silent {A : Type} (url : string) (m : M A) :
  silent m -> atMostOneRequest url m.
Proof. intros H w. left. apply H. Qed.

Lemma atMostOneRequest_bind_l {A B : Type} (url : string) (m : M A) (k : A -> M B) :
  silent m -> (forall a, atMostOneRequest url (k a)) ->
  atMostOneRequest url (bind m k).
Proof.
  intros Hm Hk w. unfold bind. specialize (Hm w).
  destruct (m w) as [[a|e] w1]; simpl in *; [|left; exact Hm].
  rewrite <- Hm. apply Hk.
Qed.

Lemma atMostOneRequest_bind_r {A B : Type} (url : string) (m : M A) (k : A -> M B) :
  atMostOneRequest url m -> (forall a, silent (k a)) ->
  atMostOneRequest url (bind m k).
Proof.
  intros Hm Hk w. unfold bind. specialize (Hm w).
  destruct (m w) as [[a|e] w1]; simpl in *; [|exact Hm].
  rewrite (Hk a w1). exact Hm.
Qed.

Lemma atMostOneRequest_try {A : Type} (url : string) (m : M A) :
  atMostOneRequest url m -> atMostOneRequest url (try m).
Proof.
  intros Hm w. unfold try. specialize (Hm w).
  destruct (m w) as [r w1]. exact Hm.
Qed.

Lemma silent_getInstallDir0 (env : Env) : silent (getInstallDir0 env).
Proof. unfold getInstallDir0, getHomeDir. silent_tac. Qed.

Lemma silent_getSymlinkPath0 (env : Env) : silent (getSymlinkPath0 env).
Proof.
  unfold getSymlinkPath0, getHomeDir. silent_tac.
  intros w. unfold getSymlinkPathImpl.
  destruct (firstPreferred _ _); [|destruct (firstWritable _ _ _) as [[d|] f]].
  all: repeat match goal with
         | |- context [if ?b then _ else _] => destruct b
         | |- context [os_MkdirAll ?p ?w0] =>
             pose proof (silent_fsdo (fun f => os.MkdirAll f p) (SysError "mkdir" p) w0);
             unfold os_MkdirAll; destruct (fsdo _ _ w0) as [[[]|e] w1]
         end; simpl in *; auto.
Qed.

Lemma installVersion0_requests (env : Env) (version : string) :
  atMostOneRequest (downloadURL env version) (installVersion0 env version).
Proof.
  unfold installVersion0, installVersionImpl.
  apply atMostOneRequest_bind_l;
    [unfold ensureInstallDir, os_MkdirAll; pose proof (silent_getInstallDir0 env);
     silent_tac | intros _].
  destruct (unsupportedPlatform env);
    [apply atMostOneRequest_silent, silent_fail|].
  apply atMostOneRequest_bind_l; [apply silent_getInstallDir0 | intros installPath].
  cbv zeta.
  apply atMostOneRequest_bind_l; [unfold os_Stat; silent_tac | intros st].
  apply atMostOneRequest_bind_l;
    [unfold os_RemoveAll; silent_tac | intros r].
  destruct r; [|apply atMostOneRequest_silent, silent_fail].
  apply atMostOneRequest_bind_l; [unfold os_MkdirAll; silent_tac | intros r].
  destruct r; [|apply atMostOneRequest_silent, silent_fail].
  apply atMostOneRequest_bind_r.
  - apply atMostOneRequest_try. intros w. right.
    rewrite download_run. cbv zeta.
    destruct (http_get env (clock w) (downloadURL env version)) as [[|st' body] el];
      cbn [fst snd]; [reflexivity|].
    destruct (st' =? 200)%Z; [|reflexivity].
    destruct (os.Create _ _ _); [|reflexivity].
    destruct (isWindows env); [reflexivity|].
    destruct (os.Chmod _ _ _); reflexivity.
  - intros r. destruct r; [|silent_tac].
    unfold verifyDownloaded, exec_version. silent_tac.
Qed.

Lemma silent_activate0 (env : Env) (version binPath : string) :
  silent (activate env (getSymlinkPath0 env) version binPath).
Proof.
  pose proof (silent_getSymlinkPath0 env) as Hl.
  unfold activate, createSymlink, copyFile, verifyActive, exec_ddn,
    os_Remove, os_Symlink, os_Create, os_Chmod, os_Stat.
  silent_tac.
Qed.

(** Only the installer uses the network, and once.  Installing a version
    sends at most one request, and so does switching to it: the request
    for the program of that version and this platform.  Uninstalling and
    the search for the link path send none. *)
Theorem one_request_per_install (env : Env) (version : string) (w : World) :
  let url := downloadURL env version in
  (requests (snd (installVersion0 env version w)) = requests w
   \/ requests (snd (installVersion0 env version w)) = url :: requests w)
  /\ (requests (snd (switchToVersion0 env version w)) = requests w
      \/ requests (snd (switchToVersion0 env version w)) = url :: requests w)
  /\ requests (snd (uninstallVersion0 env version w)) = requests w
  /\ requests (snd (getSymlinkPath0 env w)) = requests w.
Proof.
  intros url.
  pose proof (installVersion0_requests env version) as Hinst.
  pose proof (silent_getInstallDir0 env) as Hdir.
  split; [apply Hinst|]. split; [|split].
  - revert w. change (atMostOneRequest url (switchToVersion0 env version)).
    unfold switchToVersion0, switchToVersion.
    apply atMostOneRequest_bind_l;
      [unfold ensureInstallDir, os_MkdirAll; silent_tac | intros _].
    apply atMostOneRequest_bind_l; [exact Hdir | intros installPath]. cbv zeta.
    apply atMostOneRequest_bind_r; [|intros _; apply silent_activate0].
    assert (Hcall : forall why,
               atMostOneRequest url
                 (reinstall (installVersion0 env) why version)).
    { intros why. unfold reinstall.
      apply atMostOneRequest_bind_l; [silent_tac | intros _].
      apply atMostOneRequest_bind_r; [|intros r; silent_tac].
      apply atMostOneRequest_try. unfold callInstall.
      apply atMostOneRequest_bind_l; [silent_tac | intros _]. exact Hinst. }
    unfold ensureVersion.
    apply atMostOneRequest_bind_l; [unfold os_Stat; silent_tac | intros st].
    assert (Hcheck : atMostOneRequest url
               (out <- exec_version env (binPathOf env installPath version) ;;
                match out with
                | None => reinstall (installVersion0 env) "verification failure" version
                | Some output =>
                    if negb (strings.Contains (strings.TrimSpace output) version)
                    then reinstall (installVersion0 env) "version mismatch" version
                    else ret tt
                end)%go).
    { apply atMostOneRequest_bind_l; [unfold exec_version; silent_tac | intros out].
      destruct out as [output|]; [|apply Hcall].
      destruct (negb _); [apply Hcall | apply atMostOneRequest_silent, silent_ret]. }
    destruct st as [n| |].
    + apply atMostOneRequest_bind_l;
        [unfold os_Chmod; silent_tac | intros _; exact Hcheck].
    + apply atMostOneRequest_bind_l; [silent_tac | intros _].
      apply atMostOneRequest_bind_r; [|intros r; silent_tac].
      apply atMostOneRequest_try. unfold callInstall.
      apply atMostOneRequest_bind_l; [silent_tac | intros _]. exact Hinst.
    + apply atMostOneRequest_bind_l;
        [unfold os_Chmod; silent_tac | intros _; exact Hcheck].
  - revert w. change (silent (uninstallVersion0 env version)).
    unfold uninstallVersion0, uninstallVersion, os_Stat, os_RemoveAll.
    silent_tac.
  - apply silent_getSymlinkPath0.
Qed.

(** ** More on the listing commands *)

